(** * FingerprintInscreen: fingerprint-on-display HAL shim (fod/FingerprintInscreen.cpp)

    A shallow embedding of the controller.  The sysfs files, the system
    properties, the vendor service and the registered listener are the
    outside world; every method is a state transformer over the object's
    fields and that world, and every effect the code performs (file write,
    vendor request, listener call, log line) is appended to a trace.
    [onPress] and [onRelease] can also end the process; they carry an
    explicit outcome. *)

From Stdlib Require Import ZArith String Ascii List DecimalString Lia.
From stdpp Require Import base option gmap strings.

Local Open Scope string_scope.
Local Open Scope Z_scope.

(** ** Constants of the translation unit *)

Definition FINGERPRINT_ACQUIRED_VENDOR : Z := 6.

Definition TSP_CMD_PATH : string := "/sys/class/sec/tsp/cmd".
Definition BRIGHTNESS_PATH : string :=
  "/sys/class/backlight/panel0-backlight/brightness".

Definition SEM_FINGER_STATE : Z := 22.
Definition SEM_PARAM_PRESSED : Z := 2.
Definition SEM_PARAM_RELEASED : Z := 1.
Definition SEM_AOSP_FQNAME : string :=
  "android.hardware.biometrics.fingerprint@2.1::IBiometricsFingerprint".

Definition BOOTLOADER_PROP : string := "ro.boot.bootloader".

(** ** HIDL return values *)

(** [Return<T>]: either the value of a completed call or a transport
    failure with its description. *)
Inductive Return (T : Type) : Type :=
| Ok (v : T)
| NotOk (description : string).
Arguments Ok {T} v.
Arguments NotOk {T} description.

Definition Void : Return unit := Ok tt.

Definition isOk {T} (r : Return T) : bool :=
  match r with Ok _ => true | NotOk _ => false end.

(** [description()]: the code asks for it only after [isOk()] was false. *)
Definition description {T} (r : Return T) : string :=
  match r with Ok _ => "No error" | NotOk d => d end.

(** ** The outside world *)

(** The registered listener, [IFingerprintInscreenCallback]: what each of
    its two remote calls reports back. *)
Record IFingerprintInscreenCallback := {
  cb_onFingerDown : Return unit;
  cb_onFingerUp : Return unit
}.

(** The vendor service, [ISehBiometricsFingerprint]: the answer to a
    [sehRequest(state, param, data)], either a (code, payload) pair that is
    handed to the result callback, or a failed transaction. *)
Record ISehBiometricsFingerprint := {
  seh_answer : Z -> Z -> list Z -> Return (Z * list Z)
}.

Inductive Event : Type :=
| EWrite (path value : string)
| ESehRequest (state param : Z) (data : list Z)
| EFingerDown
| EFingerUp
| ELogError (msg : string).

(** [seh_service] is what [ISehBiometricsFingerprint::getService()] hands
    out: a handle, or null when the service is not there. *)
Record World := {
  files : gmap string string;
  properties : gmap string string;
  seh_service : option ISehBiometricsFingerprint;
  trace : list Event
}.

(** ** The object *)

Record FingerprintInscreen := {
  mSehBiometricsFingerprintService : option ISehBiometricsFingerprint;
  mCallback : option IFingerprintInscreenCallback;
  mPreviousBrightness : string
}.

(** ** State monad over (object, world) *)

Definition St : Type := FingerprintInscreen * World.
Definition M (A : Type) : Type := St -> A * St.

#[global] Instance M_ret : MRet M := fun A (a : A) (s : St) => (a, s).
#[global] Instance M_bind : MBind M :=
  fun A B (k : A -> M B) (m : M A) (s : St) => let (a, s') := m s in k a s'.

Definition ret {A} (a : A) : M A := mret a.

Definition getThis : M FingerprintInscreen := fun s => (fst s, s).
Definition getWorld : M World := fun s => (snd s, s).
Definition putThis (o : FingerprintInscreen) : M unit := fun s => (tt, (o, snd s)).
Definition putWorld (w : World) : M unit := fun s => (tt, (fst s, w)).

Definition emit (e : Event) : M unit :=
  w ← getWorld;
  putWorld {| files := files w; properties := properties w;
              seh_service := seh_service w; trace := trace w ++ [e] |}.

Definition LOG_ERROR (msg : string) : M unit := emit (ELogError msg).

(** ** Calls that may end the process

    Two things in this file kill the process instead of returning: a call
    through a null service handle, and the destruction of a [Return<void>]
    that carries a failed transaction and was never checked (libhidl's
    destructor aborts there).  An [Outcome] is either a normal return or
    such an end, with the state reached by then. *)

Inductive Fatal : Type :=
| NullDereference
| UncheckedFailedReturn (description : string).

Inductive Outcome (A : Type) : Type :=
| Returned (a : A) (s : St)
| Aborted (why : Fatal) (s : St).
Arguments Returned {A} a s.
Arguments Aborted {A} why s.

Definition final {A} (r : Outcome A) : St :=
  match r with Returned _ s => s | Aborted _ s => s end.

Definition returned {A} (r : Outcome A) : option A :=
  match r with Returned a _ => Some a | Aborted _ _ => None end.

Definition MA (A : Type) : Type := St -> Outcome A.

#[global] Instance MA_ret : MRet MA := fun A (a : A) (s : St) => Returned a s.
#[global] Instance MA_bind : MBind MA :=
  fun A B (k : A -> MA B) (m : MA A) (s : St) =>
    match m s with
    | Returned a s' => k a s'
    | Aborted why s' => Aborted why s'
    end.

(** A computation that cannot end the process, run inside one that can. *)
Definition lift {A} (m : M A) : MA A :=
  fun s => let (a, s') := m s in Returned a s'.

Definition fatal {A} (why : Fatal) : MA A := fun s => Aborted why s.

(** ** Text helpers of the C++ runtime *)

(** [std::isspace] in the "C" locale. *)
Definition isspace (c : ascii) : bool :=
  let n := nat_of_ascii c in
  (Nat.eqb n 32 || (Nat.leb 9 n && Nat.leb n 13))%bool.

(** [operator>>(istream&, std::string&)]: leading white space is skipped,
    then characters are taken up to the next white space or the end. *)
Fixpoint skipws (s : string) : string :=
  match s with
  | EmptyString => EmptyString
  | String c s' => if isspace c then skipws s' else s
  end.

Fixpoint token (s : string) : string :=
  match s with
  | EmptyString => EmptyString
  | String c s' => if isspace c then EmptyString else String c (token s')
  end.

(** The extraction fails (failbit) when no character was taken. *)
Definition extract (content : string) : option string :=
  match token (skipws content) with
  | EmptyString => None
  | t => Some t
  end.

(** [operator<<(ostream&, int32_t)]: decimal digits, '-' when negative. *)
Definition dec (z : Z) : string := NilZero.string_of_int (Z.to_int z).

Definition newline : string := String (ascii_of_nat 10) EmptyString.

(** [std::string::find(pattern)]: position of the first occurrence,
    [None] standing for [npos]. *)
Fixpoint find (s pat : string) : option nat :=
  if String.prefix pat s then Some 0%nat
  else match s with
       | EmptyString => None
       | String _ s' => option_map S (find s' pat)
       end.

Definition npos : option nat := None.

(** ** File helpers of the translation unit *)

(** [set(path, value)]: open for writing (truncating) and write [value].
    The stream's state is never inspected by the code; the write is taken
    to reach the file. *)
Definition set (path value : string) : M unit :=
  w ← getWorld;
  putWorld {| files := <[path := value]> (files w); properties := properties w;
              seh_service := seh_service w; trace := trace w |};;
  emit (EWrite path value).

(** [get<std::string>(path, def)]: one extraction from the file; [def] when
    the stream failed (file not opened, or nothing to extract). *)
Definition get (path def : string) : M string :=
  w ← getWorld;
  match files w !! path with
  | None => ret def
  | Some content =>
      match extract content with
      | None => ret def
      | Some result => ret result
      end
  end.

(** [(int8_t) c]: the character's code, wrapped into [-128, 127]. *)
Definition int8_of_char (c : ascii) : Z :=
  let n := Z.of_nat (nat_of_ascii c) in
  if n <? 128 then n else n - 256.

(** [stringToVec]: the characters of [str] followed by one 0. *)
Definition stringToVec (str : string) : list Z :=
  map int8_of_char (list_ascii_of_string str) ++ [0].

(** [android::base::GetProperty(key, default)]: the default when the
    property is missing or empty. *)
Definition GetProperty (key def : string) : M string :=
  w ← getWorld;
  match properties w !! key with
  | None => ret def
  | Some EmptyString => ret def
  | Some v => ret v
  end.

Definition getBootloader : M string := GetProperty BOOTLOADER_PROP "".

(** ** Remote calls *)

(** [svc->sehRequest(state, param, data, cb)] on a live handle: the request
    is sent; when the transaction completes, [cb] receives the answer and
    the call returns an OK status, otherwise it returns the failure. *)
Definition sehRequest (svc : ISehBiometricsFingerprint) (state param : Z)
    (data : list Z) (cb : Z -> list Z -> M unit) : M (Return unit) :=
  emit (ESehRequest state param data);;
  match seh_answer svc state param data with
  | Ok (code, payload) => cb code payload;; ret (Ok tt)
  | NotOk d => ret (NotOk d)
  end.

(** [handle->]: the handle is used without a null test; a null one ends
    the process. *)
Definition deref (handle : option ISehBiometricsFingerprint)
  : MA ISehBiometricsFingerprint :=
  match handle with
  | Some svc => mret svc
  | None => fatal NullDereference
  end.

(** End of a statement whose [Return<void>] was never looked at: the
    temporary is destroyed, and a failed status ends the process. *)
Definition discard (r : Return unit) : MA unit :=
  if isOk r then mret tt else fatal (UncheckedFailedReturn (description r)).

(** [mCallback->onFingerDown()] and [mCallback->onFingerUp()]. *)
Definition onFingerDown (cb : IFingerprintInscreenCallback) : M (Return unit) :=
  emit EFingerDown;; ret (cb_onFingerDown cb).

Definition onFingerUp (cb : IFingerprintInscreenCallback) : M (Return unit) :=
  emit EFingerUp;; ret (cb_onFingerUp cb).

(** ** Methods of FingerprintInscreen *)

Definition set_mPreviousBrightness (v : string) : M unit :=
  this ← getThis;
  putThis {| mSehBiometricsFingerprintService := mSehBiometricsFingerprintService this;
             mCallback := mCallback this;
             mPreviousBrightness := v |}.

Definition set_mCallback (cb : option IFingerprintInscreenCallback) : M unit :=
  this ← getThis;
  putThis {| mSehBiometricsFingerprintService := mSehBiometricsFingerprintService this;
             mCallback := cb;
             mPreviousBrightness := mPreviousBrightness this |}.

(** Body of the constructor, after the members were initialised. *)
Definition constructor_body : M unit :=
  b ← getBootloader;
  (if bool_decide (find b "A525" ≠ npos) then
     set TSP_CMD_PATH "set_fod_rect,421,2018,659,2256"
   else
     b' ← getBootloader;
     if bool_decide (find b' "A725" ≠ npos) then
       set TSP_CMD_PATH "set_fod_rect,426,2031,654,2259"
     else
       LOG_ERROR "Device is not an A52 or A72, not setting set_fod_rect");;
  set TSP_CMD_PATH "fod_enable,1,1,0".

(** [FingerprintInscreen::FingerprintInscreen()]: the service handle is
    taken from [getService()], the listener pointer and the saved
    brightness start out null and empty, then the body runs. *)
Definition FingerprintInscreen_new (w : World) : St :=
  let this := {| mSehBiometricsFingerprintService := seh_service w;
                 mCallback := None;
                 mPreviousBrightness := "" |} in
  snd (constructor_body (this, w)).

(** [requestResult(int, const hidl_vec<int8_t>&)]: ignore all results. *)
Definition requestResult (_ : Z) (_ : list Z) : M unit := ret tt.

Definition onStartEnroll : M (Return unit) := ret Void.
Definition onFinishEnroll : M (Return unit) := ret Void.

Definition onPress : MA (Return unit) :=
  prev ← lift (get BRIGHTNESS_PATH "");
  lift (set_mPreviousBrightness prev);;
  lift (set BRIGHTNESS_PATH "331");;
  this ← lift getThis;
  svc ← deref (mSehBiometricsFingerprintService this);
  r ← lift (sehRequest svc SEM_FINGER_STATE SEM_PARAM_PRESSED
              (stringToVec SEM_AOSP_FQNAME) requestResult);
  discard r;;
  mret Void.

(** The restore step shared, verbatim, by [onRelease] and [onHideFODView]. *)
Definition restore_brightness : M unit :=
  this ← getThis;
  if negb (String.eqb (mPreviousBrightness this) "") then
    set BRIGHTNESS_PATH (mPreviousBrightness this);;
    set_mPreviousBrightness ""
  else ret tt.

Definition onRelease : MA (Return unit) :=
  this ← lift getThis;
  svc ← deref (mSehBiometricsFingerprintService this);
  r ← lift (sehRequest svc SEM_FINGER_STATE SEM_PARAM_RELEASED
              (stringToVec SEM_AOSP_FQNAME) requestResult);
  discard r;;
  lift (set TSP_CMD_PATH "fod_enable,0");;
  lift restore_brightness;;
  mret Void.

Definition onShowFODView : M (Return unit) := ret Void.

Definition onHideFODView : M (Return unit) :=
  set TSP_CMD_PATH "fod_enable,0";;
  restore_brightness;;
  ret Void.

(** [handleAcquired]: the mutex only serialises accesses to [mCallback];
    in this sequential model taking it has no effect. *)
Definition handleAcquired (acquiredInfo vendorCode : Z) : M (Return bool) :=
  this ← getThis;
  match mCallback this with
  | None => ret (Ok false)
  | Some cb =>
      let unhandled : M (Return bool) :=
        LOG_ERROR ("acquiredInfo: " +:+ dec acquiredInfo +:+
                   ", vendorCode: " +:+ dec vendorCode +:+ newline);;
        ret (Ok false) in
      if acquiredInfo =? FINGERPRINT_ACQUIRED_VENDOR then
        if vendorCode =? 10002 then
          r ← onFingerDown cb;
          (if negb (isOk r)
           then LOG_ERROR ("FingerDown() error: " +:+ description r)
           else ret tt);;
          ret (Ok true)
        else if vendorCode =? 10001 then
          r ← onFingerUp cb;
          (if negb (isOk r)
           then LOG_ERROR ("FingerUp() error: " +:+ description r)
           else ret tt);;
          ret (Ok true)
        else unhandled
      else unhandled
  end.

Definition handleError (_ _ : Z) : M (Return bool) := ret (Ok false).
Definition setLongPressEnabled (_ : bool) : M (Return unit) := ret Void.
Definition getDimAmount (cur_brightness : Z) : M (Return Z) := ret (Ok 0).
Definition shouldBoostBrightness : M (Return bool) := ret (Ok false).

Definition setCallback (callback : option IFingerprintInscreenCallback)
  : M (Return unit) :=
  set_mCallback callback;;
  ret Void.

Definition getPositionX : M (Return Z) :=
  b ← getBootloader;
  if bool_decide (find b "A525" ≠ npos) then ret (Ok 421)
  else
    b' ← getBootloader;
    if bool_decide (find b' "A725" ≠ npos) then ret (Ok 426)
    else ret (Ok 0).

Definition getPositionY : M (Return Z) :=
  b ← getBootloader;
  if bool_decide (find b "A525" ≠ npos) then ret (Ok 2018)
  else
    b' ← getBootloader;
    if bool_decide (find b' "A725" ≠ npos) then ret (Ok 2031)
    else ret (Ok 0).

Definition getSize : M (Return Z) :=
  b ← getBootloader;
  if bool_decide (find b "A525" ≠ npos) then ret (Ok 238)
  else
    b' ← getBootloader;
    if bool_decide (find b' "A725" ≠ npos) then ret (Ok 228)
    else ret (Ok 0).

(** ** Observations on traces *)

(** The values written to [path], in order. *)
Definition writes_to (path : string) (t : list Event) : list string :=
  omap (fun e => match e with
                 | EWrite p v => if String.eqb p path then Some v else None
                 | _ => None
                 end) t.

(** The listener calls, in order. *)
Definition callback_calls (t : list Event) : list Event :=
  List.filter (fun e => match e with
                        | EFingerDown | EFingerUp => true
                        | _ => false
                        end) t.

Definition sample_world : World :=
  {| files := {[ BRIGHTNESS_PATH := "120" +:+ newline ]};
     properties := {[ BOOTLOADER_PROP := "A525FXXU4AUJ2" ]};
     seh_service := Some {| seh_answer := fun _ _ _ => Ok (0, []) |};
     trace := [] |}.

(** The events a computation appends to the trace when run from [s]. *)
Definition events_of {A} (m : M A) (s : St) : list Event :=
  drop (length (trace (snd s))) (trace (snd (snd (m s)))).

(** The same for a computation that may end the process: the events up to
    its return or its end. *)
Definition effects_of {A} (m : MA A) (s : St) : list Event :=
  drop (length (trace (snd s))) (trace (snd (final (m s)))).

(** The events appended to the trace by constructing the object in [w]. *)
Definition construction_events (w : World) : list Event :=
  drop (length (trace w)) (trace (snd (FingerprintInscreen_new w))).

(** The bootloader identifier the platform currently reports. *)
Definition bootloader_id (w : World) : string :=
  default "" (properties w !! BOOTLOADER_PROP).

(** [contains s pat]: [pat] occurs in [s] as a substring. *)
Definition contains (s pat : string) : Prop :=
  exists pre post : string, s = pre +:+ pat +:+ post.

(** ** The touch-panel command format

    The command file takes text commands; the rectangle command reads
    [set_fod_rect,<left>,<top>,<right>,<bottom>].  [parse_fod_rect] reads
    the four integers back from such a command. *)

Fixpoint split_commas (s : string) : list string :=
  match s with
  | EmptyString => [EmptyString]
  | String c s' =>
      if Ascii.eqb c "," then EmptyString :: split_commas s'
      else match split_commas s' with
           | [] => [String c EmptyString]
           | field :: rest => String c field :: rest
           end
  end.

Definition parse_dec (s : string) : option Z :=
  option_map Z.of_int (NilZero.int_of_string s).

Definition parse_fod_rect (cmd : string) : option (Z * Z * Z * Z) :=
  match split_commas cmd with
  | [name; l; t; r; b] =>
      if String.eqb name "set_fod_rect" then
        match parse_dec l, parse_dec t, parse_dec r, parse_dec b with
        | Some l, Some t, Some r, Some b => Some (l, t, r, b)
        | _, _, _, _ => None
        end
      else None
  | _ => None
  end.

(** The rectangles programmed by the events of a trace. *)
Definition rects_written (t : list Event) : list (Z * Z * Z * Z) :=
  omap parse_fod_rect (writes_to TSP_CMD_PATH t).

(** ** The device profile as the specification describes it

    The specification speaks of a profile resolved from the bootloader
    identifier by substring match ("A525" first, then "A725") and of
    getters that are lookups against that profile.  These definitions
    follow its words; the theorems compare them with the code above. *)

Inductive DeviceProfile : Type := ModelA525 | ModelA725 | UnknownModel.

Definition spec_resolve (bootloader : string) : DeviceProfile :=
  if bool_decide (find bootloader "A525" <> npos) then ModelA525
  else if bool_decide (find bootloader "A725" <> npos) then ModelA725
  else UnknownModel.

Definition spec_positionX (p : DeviceProfile) : Z :=
  match p with ModelA525 => 421 | ModelA725 => 426 | UnknownModel => 0 end.

Definition spec_positionY (p : DeviceProfile) : Z :=
  match p with ModelA525 => 2018 | ModelA725 => 2031 | UnknownModel => 0 end.

Definition spec_size (p : DeviceProfile) : Z :=
  match p with ModelA525 => 238 | ModelA725 => 228 | UnknownModel => 0 end.

(** The world with the bootloader property replaced. *)
Definition with_bootloader (b : string) (w : World) : World :=
  {| files := files w;
     properties := <[BOOTLOADER_PROP := b]> (properties w);
     seh_service := seh_service w;
     trace := trace w |}.

(** The world with the content of one file replaced by the environment. *)
Definition with_file (path content : string) (w : World) : World :=
  {| files := <[path := content]> (files w);
     properties := properties w;
     seh_service := seh_service w;
     trace := trace w |}.

(** The world after the events [es] were appended to its trace. *)
Definition add_events (es : list Event) (w : World) : World :=
  {| files := files w; properties := properties w;
     seh_service := seh_service w; trace := trace w ++ es |}.

(** What a listener call appends: the call, then a log line when the call
    reported a failure. *)
Definition call_events (name : string) (e : Event) (r : Return unit) : list Event :=
  e :: (if isOk r then [] else [ELogError (name +:+ description r)]).

Definition unhandled_message (acquiredInfo vendorCode : Z) : string :=
  "acquiredInfo: " +:+ dec acquiredInfo +:+
  ", vendorCode: " +:+ dec vendorCode +:+ newline.

(** The object with the saved brightness replaced. *)
Definition with_mPreviousBrightness (v : string) (o : FingerprintInscreen)
  : FingerprintInscreen :=
  {| mSehBiometricsFingerprintService := mSehBiometricsFingerprintService o;
     mCallback := mCallback o;
     mPreviousBrightness := v |}.

(** The vendor requests of a trace, in order. *)
Definition seh_requests (t : list Event) : list (Z * Z * list Z) :=
  omap (fun e => match e with
                 | ESehRequest state param data => Some (state, param, data)
                 | _ => None
                 end) t.

(** What the restore step writes for a saved value [prev]. *)
Definition restore_events (prev : string) : list Event :=
  if String.eqb prev "" then [] else [EWrite BRIGHTNESS_PATH prev].

Definition restore_files (prev : string) (w : World) : World :=
  if String.eqb prev "" then w else with_file BRIGHTNESS_PATH prev w.

(** The two operations that end a press. *)
Inductive Closer : Type := ByRelease | ByHide.

Definition close (c : Closer) : MA (Return unit) :=
  match c with ByRelease => onRelease | ByHide => lift onHideFODView end.

(** The request with parameter [param] goes through: the handle of [o] is
    not null and the service completes the transaction. *)
Definition request_completes (o : FingerprintInscreen) (param : Z) : bool :=
  match mSehBiometricsFingerprintService o with
  | Some svc =>
      isOk (seh_answer svc SEM_FINGER_STATE param (stringToVec SEM_AOSP_FQNAME))
  | None => false
  end.

(** [onHideFODView] sends nothing; [onRelease] needs its request to go
    through. *)
Definition closer_completes (c : Closer) (o : FingerprintInscreen) : bool :=
  match c with
  | ByRelease => request_completes o SEM_PARAM_RELEASED
  | ByHide => true
  end.

(** The protocol name as the bytes that go over the wire. *)
Definition SEM_AOSP_FQNAME_bytes : list Z :=
  [97; 110; 100; 114; 111; 105; 100; 46; 104; 97; 114; 100; 119; 97; 114;
   101; 46; 98; 105; 111; 109; 101; 116; 114; 105; 99; 115; 46; 102; 105;
   110; 103; 101; 114; 112; 114; 105; 110; 116; 64; 50; 46; 49; 58; 58; 73;
   66; 105; 111; 109; 101; 116; 114; 105; 99; 115; 70; 105; 110; 103; 101;
   114; 112; 114; 105; 110; 116; 0].

(** A vendor service whose transactions all fail. *)
Definition failing_service : ISehBiometricsFingerprint :=
  {| seh_answer := fun _ _ _ => NotOk "DEAD_OBJECT" |}.

(** A listener whose calls all fail, and one whose calls all succeed. *)
Definition dead_listener : IFingerprintInscreenCallback :=
  {| cb_onFingerDown := NotOk "DEAD_OBJECT"; cb_onFingerUp := NotOk "DEAD_OBJECT" |}.

Definition live_listener : IFingerprintInscreenCallback :=
  {| cb_onFingerDown := Ok tt; cb_onFingerUp := Ok tt |}.

(** ** Shapes of text *)

(** No character of [s] is white space; every character of [s] is. *)
Fixpoint no_space (s : string) : bool :=
  match s with
  | EmptyString => true
  | String c s' => negb (isspace c) && no_space s'
  end.

Fixpoint all_space (s : string) : bool :=
  match s with
  | EmptyString => true
  | String c s' => isspace c && all_space s'
  end.

(** [s] is empty or begins with a white space character. *)
Definition ends_token (s : string) : bool :=
  match s with
  | EmptyString => true
  | String c _ => isspace c
  end.

(** ** Calls of the HAL interface and runs of them

    The framework drives the object through its interface methods; between
    two calls the outside world may rewrite a file (the system changing the
    backlight, say).  A run is any sequence of such steps.  Once a call
    has ended the process no later call runs; the outside world goes on. *)

Inductive Call : Type :=
| CallOnStartEnroll
| CallOnFinishEnroll
| CallOnPress
| CallOnRelease
| CallOnShowFODView
| CallOnHideFODView
| CallHandleAcquired (acquiredInfo vendorCode : Z)
| CallHandleError (error vendorCode : Z)
| CallSetLongPressEnabled (enabled : bool)
| CallGetDimAmount (cur_brightness : Z)
| CallShouldBoostBrightness
| CallSetCallback (callback : option IFingerprintInscreenCallback)
| CallGetPositionX
| CallGetPositionY
| CallGetSize.

Definition ignore {A} (m : MA A) : MA unit :=
  fun s => match m s with
           | Returned _ s' => Returned tt s'
           | Aborted why s' => Aborted why s'
           end.

Definition perform (c : Call) : MA unit :=
  match c with
  | CallOnStartEnroll => ignore (lift onStartEnroll)
  | CallOnFinishEnroll => ignore (lift onFinishEnroll)
  | CallOnPress => ignore onPress
  | CallOnRelease => ignore onRelease
  | CallOnShowFODView => ignore (lift onShowFODView)
  | CallOnHideFODView => ignore (lift onHideFODView)
  | CallHandleAcquired a v => ignore (lift (handleAcquired a v))
  | CallHandleError a v => ignore (lift (handleError a v))
  | CallSetLongPressEnabled b => ignore (lift (setLongPressEnabled b))
  | CallGetDimAmount b => ignore (lift (getDimAmount b))
  | CallShouldBoostBrightness => ignore (lift shouldBoostBrightness)
  | CallSetCallback cb => ignore (lift (setCallback cb))
  | CallGetPositionX => ignore (lift getPositionX)
  | CallGetPositionY => ignore (lift getPositionY)
  | CallGetSize => ignore (lift getSize)
  end.

Inductive Step : Type :=
| Invoke (c : Call)
| Outside (path content : string).

Definition step (st : Step) : MA unit :=
  match st with
  | Invoke c => perform c
  | Outside path content =>
      fun s => Returned tt (fst s, with_file path content (snd s))
  end.

(** What a step still does once the process is gone. *)
Definition outside_only (st : Step) (s : St) : St :=
  match st with
  | Invoke _ => s
  | Outside path content => (fst s, with_file path content (snd s))
  end.

Definition run_dead (l : list Step) (s : St) : St :=
  fold_left (fun s st => outside_only st s) l s.

(** The state a run ends in; after an abort the object is frozen as the
    abort left it. *)
Fixpoint run_steps (l : list Step) (s : St) : St :=
  match l with
  | [] => s
  | st :: l' =>
      match step st s with
      | Returned _ s' => run_steps l' s'
      | Aborted _ s' => run_dead l' s'
      end
  end.

(** The steps of a run that were started: all of them, or those up to and
    including the call that ended the process. *)
Fixpoint started (l : list Step) (s : St) : list Step :=
  match l with
  | [] => []
  | st :: l' =>
      st :: match step st s with
            | Returned _ s' => started l' s'
            | Aborted _ _ => []
            end
  end.

(** No call of the run ends the process. *)
Fixpoint completes (l : list Step) (s : St) : bool :=
  match l with
  | [] => true
  | st :: l' =>
      match step st s with
      | Returned _ s' => completes l' s'
      | Aborted _ _ => false
      end
  end.

(** The events appended to the trace between the states [s] and [s']. *)
Definition events_since (s s' : St) : list Event :=
  drop (length (trace (snd s))) (trace (snd s')).

(** The world [w] with files [fl] and the events [es] appended. *)
Definition world_after (fl : gmap string string) (es : list Event) (w : World)
  : World :=
  {| files := fl; properties := properties w;
     seh_service := seh_service w; trace := trace w ++ es |}.

(** 1 when a saved brightness value is waiting to be written back. *)
Definition pending (o : FingerprintInscreen) : nat :=
  if String.eqb (mPreviousBrightness o) "" then 0%nat else 1%nat.

Definition is_press (st : Step) : bool :=
  match st with Invoke CallOnPress => true | _ => false end.

(** The vendor request a step sends, if any. *)
Definition signal_of (st : Step) : list (Z * Z * list Z) :=
  match st with
  | Invoke CallOnPress =>
      [(SEM_FINGER_STATE, SEM_PARAM_PRESSED, stringToVec SEM_AOSP_FQNAME)]
  | Invoke CallOnRelease =>
      [(SEM_FINGER_STATE, SEM_PARAM_RELEASED, stringToVec SEM_AOSP_FQNAME)]
  | _ => []
  end.

Definition is_setCallback (st : Step) : bool :=
  match st with Invoke (CallSetCallback _) => true | _ => false end.

(** The acquisition events [handleAcquired] passes on to the listener. *)
Definition is_recognised (c : Call) : bool :=
  match c with
  | CallHandleAcquired a v =>
      (a =? FINGERPRINT_ACQUIRED_VENDOR) && ((v =? 10002) || (v =? 10001))
  | _ => false
  end.

(** * Properties *)

(** ** Substring search *)

Lemma prefix_cons (a b : ascii) (p s : string) :
  String.prefix (String a p) (String b s)
  = if ascii_dec a b then String.prefix p s else false.
Proof. reflexivity. Qed.

Lemma prefix_app (p s : string) :
  String.prefix p s = true <-> exists post, s = p +:+ post.
Proof.
  revert s. induction p as [|a p IH]; intros s.
  - split; [intros _; exists s; reflexivity | destruct s; reflexivity].
  - destruct s as [|b s].
    + split; [discriminate | intros [post H]; discriminate].
    + rewrite prefix_cons. destruct (ascii_dec a b) as [->|Hab].
      * rewrite IH. split; intros [post H]; exists post.
        -- simpl. now rewrite H.
        -- simpl in H. now inversion H.
      * split; [discriminate | intros [post H]; simpl in H; inversion H; congruence].
Qed.

Lemma find_unfold (s pat : string) :
  find s pat =
  if String.prefix pat s then Some 0%nat
  else match s with
       | EmptyString => None
       | String _ s' => option_map S (find s' pat)
       end.
Proof. destruct s; reflexivity. Qed.

Lemma find_Some_contains (s pat : string) (n : nat) :
  find s pat = Some n -> contains s pat.
Proof.
  revert n. induction s as [|c s IH]; intros n; rewrite find_unfold;
    destruct (String.prefix pat _) eqn:E.
  - intros _. apply prefix_app in E as [post E]. exists "", post. exact E.
  - discriminate.
  - intros _. apply prefix_app in E as [post E]. exists "", post. exact E.
  - destruct (find s pat) as [m|] eqn:F; [|discriminate].
    intros _. destruct (IH m eq_refl) as (pre & post & ->).
    exists (String c pre), post. reflexivity.
Qed.

Lemma contains_find (s pat : string) :
  contains s pat -> find s pat <> npos.
Proof.
  intros (pre & post & ->). induction pre as [|c pre IH]; rewrite find_unfold.
  - assert (E : String.prefix pat ("" +:+ pat +:+ post) = true)
      by (apply prefix_app; eauto).
    rewrite E. discriminate.
  - destruct (String.prefix pat _); [discriminate|].
    change (String c pre +:+ pat +:+ post) with (String c (pre +:+ pat +:+ post)).
    cbv beta iota.
    destruct (find (pre +:+ pat +:+ post) pat); [discriminate | contradiction].
Qed.

Lemma find_contains (s pat : string) :
  find s pat <> npos <-> contains s pat.
Proof.
  split; [|apply contains_find].
  destruct (find s pat) as [n|] eqn:E; [|intros H; now elim H].
  intros _. eapply find_Some_contains, E.
Qed.

Lemma bool_decide_find (s pat : string) :
  bool_decide (find s pat <> npos) = true <-> contains s pat.
Proof. rewrite bool_decide_eq_true. apply find_contains. Qed.

Lemma bool_decide_find_false (s pat : string) :
  bool_decide (find s pat <> npos) = false <-> ~ contains s pat.
Proof. rewrite bool_decide_eq_false, find_contains. reflexivity. Qed.

(** ** Token extraction *)

Lemma token_no_space (s : string) : skipws (token s) = token s.
Proof.
  destruct s as [|c s]; simpl; [reflexivity|].
  destruct (isspace c) eqn:E; simpl; [reflexivity | now rewrite E].
Qed.

Lemma token_idem (s : string) : token (token s) = token s.
Proof.
  induction s as [|c s IH]; simpl; [reflexivity|].
  destruct (isspace c) eqn:E; simpl; [reflexivity | now rewrite E, IH].
Qed.

(** An extracted value is never empty, and extracting from it again gives
    it back. *)
Lemma extract_nonempty (content v : string) :
  extract content = Some v -> v <> "".
Proof.
  unfold extract. destruct (token (skipws content)); [discriminate|].
  intros [= <-]. discriminate.
Qed.

Lemma extract_idem (content v : string) :
  extract content = Some v -> extract v = Some v.
Proof.
  unfold extract. destruct (token (skipws content)) as [|c t] eqn:E; [discriminate|].
  intros [= <-]. rewrite <- E, token_no_space, token_idem. now rewrite E.
Qed.

(** ** Running the primitives *)

Lemma getBootloader_run (o : FingerprintInscreen) (w : World) :
  getBootloader (o, w) = (bootloader_id w, (o, w)).
Proof.
  unfold getBootloader, GetProperty, bootloader_id, mbind, M_bind, getWorld.
  simpl. destruct (properties w !! BOOTLOADER_PROP) as [[|c v]|]; reflexivity.
Qed.

Lemma set_run (path value : string) (o : FingerprintInscreen) (w : World) :
  set path value (o, w) =
  (tt, (o, {| files := <[path := value]> (files w);
              properties := properties w;
              seh_service := seh_service w;
              trace := trace w ++ [EWrite path value] |})).
Proof. reflexivity. Qed.

Lemma LOG_ERROR_run (msg : string) (o : FingerprintInscreen) (w : World) :
  LOG_ERROR msg (o, w) =
  (tt, (o, {| files := files w; properties := properties w;
              seh_service := seh_service w;
              trace := trace w ++ [ELogError msg] |})).
Proof. reflexivity. Qed.

Lemma bind_run {A B} (m : M A) (k : A -> M B) (s : St) :
  (m ≫= k) s = k (fst (m s)) (snd (m s)).
Proof. unfold mbind, M_bind. destruct (m s); reflexivity. Qed.

Ltac run :=
  repeat (rewrite ?bind_run, ?set_run, ?LOG_ERROR_run, ?getBootloader_run;
          cbn [fst snd trace files properties seh_service
               mCallback mPreviousBrightness mSehBiometricsFingerprintService]).

(** Each getter is the table lookup on the identifier the platform
    reports at the time of the call, and leaves the state alone. *)
Lemma getPositionX_run (o : FingerprintInscreen) (w : World) :
  getPositionX (o, w) = (Ok (spec_positionX (spec_resolve (bootloader_id w))), (o, w)).
Proof.
  unfold getPositionX, spec_resolve. rewrite bind_run, getBootloader_run. simpl.
  destruct (bool_decide (find (bootloader_id w) "A525" <> npos)); [reflexivity|].
  rewrite bind_run, getBootloader_run. simpl.
  destruct (bool_decide (find (bootloader_id w) "A725" <> npos)); reflexivity.
Qed.

Lemma getPositionY_run (o : FingerprintInscreen) (w : World) :
  getPositionY (o, w) = (Ok (spec_positionY (spec_resolve (bootloader_id w))), (o, w)).
Proof.
  unfold getPositionY, spec_resolve. rewrite bind_run, getBootloader_run. simpl.
  destruct (bool_decide (find (bootloader_id w) "A525" <> npos)); [reflexivity|].
  rewrite bind_run, getBootloader_run. simpl.
  destruct (bool_decide (find (bootloader_id w) "A725" <> npos)); reflexivity.
Qed.

Lemma getSize_run (o : FingerprintInscreen) (w : World) :
  getSize (o, w) = (Ok (spec_size (spec_resolve (bootloader_id w))), (o, w)).
Proof.
  unfold getSize, spec_resolve. rewrite bind_run, getBootloader_run. simpl.
  destruct (bool_decide (find (bootloader_id w) "A525" <> npos)); [reflexivity|].
  rewrite bind_run, getBootloader_run. simpl.
  destruct (bool_decide (find (bootloader_id w) "A725" <> npos)); reflexivity.
Qed.

(** The events of construction, by resolved profile. *)
Lemma construction_events_eq (w : World) :
  construction_events w =
  match spec_resolve (bootloader_id w) with
  | ModelA525 => [EWrite TSP_CMD_PATH "set_fod_rect,421,2018,659,2256";
                  EWrite TSP_CMD_PATH "fod_enable,1,1,0"]
  | ModelA725 => [EWrite TSP_CMD_PATH "set_fod_rect,426,2031,654,2259";
                  EWrite TSP_CMD_PATH "fod_enable,1,1,0"]
  | UnknownModel =>
      [ELogError "Device is not an A52 or A72, not setting set_fod_rect";
       EWrite TSP_CMD_PATH "fod_enable,1,1,0"]
  end.
Proof.
  unfold construction_events, FingerprintInscreen_new, constructor_body, spec_resolve.
  rewrite bind_run, getBootloader_run. cbn [fst snd].
  destruct (bool_decide (find (bootloader_id w) "A525" <> npos)).
  - run. rewrite <- app_assoc. apply drop_app_length.
  - rewrite bind_run, bind_run, getBootloader_run. cbn [fst snd].
    destruct (bool_decide (find (bootloader_id w) "A725" <> npos)).
    + run. rewrite <- app_assoc. apply drop_app_length.
    + run. rewrite <- app_assoc. apply drop_app_length.
Qed.

Lemma bootloader_id_with (b : string) (w : World) :
  bootloader_id (with_bootloader b w) = b.
Proof.
  unfold bootloader_id, with_bootloader. simpl. now rewrite lookup_insert_eq.
Qed.

Lemma resolve_A525 (b : string) :
  contains b "A525" -> spec_resolve b = ModelA525.
Proof.
  intros H. unfold spec_resolve.
  apply bool_decide_find in H. now rewrite H.
Qed.

Lemma resolve_A725 (b : string) :
  ~ contains b "A525" -> contains b "A725" -> spec_resolve b = ModelA725.
Proof.
  intros H5 H7. unfold spec_resolve.
  apply bool_decide_find_false in H5. apply bool_decide_find in H7.
  now rewrite H5, H7.
Qed.

Lemma resolve_unknown (b : string) :
  ~ contains b "A525" -> ~ contains b "A725" -> spec_resolve b = UnknownModel.
Proof.
  intros H5 H7. unfold spec_resolve.
  apply bool_decide_find_false in H5. apply bool_decide_find_false in H7.
  now rewrite H5, H7.
Qed.

(** ** Geometry and construction *)

(** C2.  For every bootloader identifier [b]: when [b] contains "A525" the
    getters return 421, 2018 and 238 and construction writes
    "set_fod_rect,421,2018,659,2256"; when it does not but contains "A725"
    they return 426, 2031 and 228 and construction writes
    "set_fod_rect,426,2031,654,2259"; otherwise all three return 0 and
    construction writes no rectangle command (it logs, then only enables
    detection). *)
Theorem geometry_by_bootloader (b : string) (o : FingerprintInscreen) (w : World) :
  let s := (o, with_bootloader b w) in
  (contains b "A525" ->
     getPositionX s = (Ok 421, s) /\ getPositionY s = (Ok 2018, s) /\
     getSize s = (Ok 238, s) /\
     construction_events (with_bootloader b w) =
       [EWrite TSP_CMD_PATH "set_fod_rect,421,2018,659,2256";
        EWrite TSP_CMD_PATH "fod_enable,1,1,0"]) /\
  (~ contains b "A525" -> contains b "A725" ->
     getPositionX s = (Ok 426, s) /\ getPositionY s = (Ok 2031, s) /\
     getSize s = (Ok 228, s) /\
     construction_events (with_bootloader b w) =
       [EWrite TSP_CMD_PATH "set_fod_rect,426,2031,654,2259";
        EWrite TSP_CMD_PATH "fod_enable,1,1,0"]) /\
  (~ contains b "A525" -> ~ contains b "A725" ->
     getPositionX s = (Ok 0, s) /\ getPositionY s = (Ok 0, s) /\
     getSize s = (Ok 0, s) /\
     construction_events (with_bootloader b w) =
       [ELogError "Device is not an A52 or A72, not setting set_fod_rect";
        EWrite TSP_CMD_PATH "fod_enable,1,1,0"] /\
     rects_written (construction_events (with_bootloader b w)) = []).
Proof.
  intros s. subst s.
  rewrite getPositionX_run, getPositionY_run, getSize_run,
    construction_events_eq, bootloader_id_with.
  split; [|split].
  - intros H. rewrite (resolve_A525 b H). repeat split.
  - intros H5 H7. rewrite (resolve_A725 b H5 H7). repeat split.
  - intros H5 H7. rewrite (resolve_unknown b H5 H7). repeat split.
Qed.

Lemma not_contains_by_find (s pat : string) :
  find s pat = npos -> ~ contains s pat.
Proof. intros E H. now apply contains_find in H. Qed.

Lemma geometry_by_bootloader_witness :
  let o := fst (FingerprintInscreen_new sample_world) in
  getPositionX (o, with_bootloader "A525FXXU4AUJ2" sample_world)
    = (Ok 421, (o, with_bootloader "A525FXXU4AUJ2" sample_world)) /\
  getSize (o, with_bootloader "A725FXXU3AUH2" sample_world)
    = (Ok 228, (o, with_bootloader "A725FXXU3AUH2" sample_world)) /\
  rects_written (construction_events (with_bootloader "G991BXXU1AUB6" sample_world)) = [].
Proof.
  intros o. split; [|split].
  - apply (geometry_by_bootloader "A525FXXU4AUJ2" o sample_world).
    exists "", "FXXU4AUJ2". reflexivity.
  - apply (geometry_by_bootloader "A725FXXU3AUH2" o sample_world).
    + apply not_contains_by_find. reflexivity.
    + exists "", "FXXU3AUH2". reflexivity.
  - apply (geometry_by_bootloader "G991BXXU1AUB6" o sample_world).
    + apply not_contains_by_find. reflexivity.
    + apply not_contains_by_find. reflexivity.
Defined.

(** C10.  For each matched profile the reported position is the top-left
    corner of the rectangle programmed at construction: exactly one
    rectangle command is written, its (left, top) is what getPositionX and
    getPositionY return, namely (421, 2018) for A525 and (426, 2031) for
    A725. *)
Theorem position_is_rect_corner (b : string) (o : FingerprintInscreen) (w : World) :
  contains b "A525" \/ contains b "A725" ->
  exists left top right bottom : Z,
    rects_written (construction_events (with_bootloader b w))
      = [(left, top, right, bottom)] /\
    fst (getPositionX (o, with_bootloader b w)) = Ok left /\
    fst (getPositionY (o, with_bootloader b w)) = Ok top /\
    (contains b "A525" -> (left, top) = (421, 2018)) /\
    (~ contains b "A525" -> (left, top) = (426, 2031)).
Proof.
  intros H.
  rewrite getPositionX_run, getPositionY_run, construction_events_eq,
    bootloader_id_with.
  destruct (spec_resolve b) eqn:R.
  - exists 421, 2018, 659, 2256. repeat split.
    intros N. unfold spec_resolve in R.
    apply bool_decide_find_false in N. rewrite N in R.
    destruct (bool_decide _); discriminate.
  - exists 426, 2031, 654, 2259. repeat split.
    intros Y. now rewrite (resolve_A525 b Y) in R.
  - exfalso. unfold spec_resolve in R.
    destruct H as [H|H]; apply bool_decide_find in H; rewrite H in R;
      [|destruct (bool_decide (find b "A525" <> npos))]; discriminate.
Qed.

Lemma position_is_rect_corner_witness :
  exists left top right bottom : Z,
    rects_written (construction_events (with_bootloader "A725FXXU3AUH2" sample_world))
      = [(left, top, right, bottom)] /\
    fst (getPositionX (fst (FingerprintInscreen_new sample_world),
                       with_bootloader "A725FXXU3AUH2" sample_world)) = Ok left /\
    fst (getPositionY (fst (FingerprintInscreen_new sample_world),
                       with_bootloader "A725FXXU3AUH2" sample_world)) = Ok top /\
    (contains "A725FXXU3AUH2" "A525" -> (left, top) = (421, 2018)) /\
    (~ contains "A725FXXU3AUH2" "A525" -> (left, top) = (426, 2031)).
Proof.
  apply (position_is_rect_corner "A725FXXU3AUH2").
  right. exists "", "FXXU3AUH2". reflexivity.
Defined.

(** ** The profile is looked up on every call *)

(** Construction leaves the listener unset, the saved brightness empty and
    the properties as they were. *)
Lemma constructor_body_frame (o : FingerprintInscreen) (w : World) :
  fst (snd (constructor_body (o, w))) = o /\
  properties (snd (snd (constructor_body (o, w)))) = properties w.
Proof.
  unfold constructor_body. rewrite bind_run, getBootloader_run. cbn [fst snd].
  destruct (bool_decide (find (bootloader_id w) "A525" <> npos)).
  - run. split; reflexivity.
  - rewrite bind_run, bind_run, getBootloader_run. cbn [fst snd].
    destruct (bool_decide (find (bootloader_id w) "A725" <> npos));
      run; split; reflexivity.
Qed.

Lemma FingerprintInscreen_new_this (w : World) :
  fst (FingerprintInscreen_new w) =
  {| mSehBiometricsFingerprintService := seh_service w;
     mCallback := None;
     mPreviousBrightness := "" |}.
Proof. unfold FingerprintInscreen_new. apply constructor_body_frame. Qed.

Lemma FingerprintInscreen_new_bootloader (w : World) :
  bootloader_id (snd (FingerprintInscreen_new w)) = bootloader_id w.
Proof.
  unfold bootloader_id, FingerprintInscreen_new.
  now rewrite (proj2 (constructor_body_frame _ w)).
Qed.

(** C7, as stated, fails: the object built while the platform reports an
    A525 identifier answers with the A725 constant once the property reads
    A725, so a getter's result is not fixed by the profile resolved at
    construction. *)
Lemma getter_follows_property_change :
  let w0 := with_bootloader "A525FXXU4AUJ2" sample_world in
  let s0 := FingerprintInscreen_new w0 in
  let w1 := with_bootloader "A725FXXU3AUH2" (snd s0) in
  fst (getPositionX s0) = Ok 421 /\
  fst (getPositionX (fst s0, w1)) = Ok 426 /\
  fst (getPositionX (fst s0, w1))
    <> Ok (spec_positionX (spec_resolve (bootloader_id w0))).
Proof.
  intros w0 s0 w1. split; [|split].
  - rewrite (surjective_pairing s0), getPositionX_run. subst s0.
    rewrite FingerprintInscreen_new_bootloader. subst w0.
    rewrite bootloader_id_with. reflexivity.
  - subst w1. rewrite getPositionX_run, bootloader_id_with. reflexivity.
  - subst w1 w0. rewrite getPositionX_run, !bootloader_id_with. discriminate.
Qed.

(** C7, amended.  Each getter reads the bootloader property at the time of
    the call and is a lookup, without any change of state, against the
    profile that identifier resolves to; so whenever the property reports
    the identifier it reported at construction, the getters return the
    constants of the profile resolved at construction, call after call. *)
Theorem getters_lookup_reported_profile
    (o : FingerprintInscreen) (w0 w1 : World) :
  bootloader_id w1 = bootloader_id w0 ->
  let p := spec_resolve (bootloader_id w0) in
  getPositionX (o, w1) = (Ok (spec_positionX p), (o, w1)) /\
  getPositionY (o, w1) = (Ok (spec_positionY p), (o, w1)) /\
  getSize (o, w1) = (Ok (spec_size p), (o, w1)).
Proof.
  intros E p. subst p.
  rewrite getPositionX_run, getPositionY_run, getSize_run, E.
  repeat split.
Qed.

Lemma getters_lookup_reported_profile_witness :
  let w0 := with_bootloader "A525FXXU4AUJ2" sample_world in
  let s0 := FingerprintInscreen_new w0 in
  bootloader_id (snd s0) = bootloader_id w0 /\
  getPositionX (fst s0, snd s0) = (Ok 421, (fst s0, snd s0)) /\
  getPositionY (fst s0, snd s0) = (Ok 2018, (fst s0, snd s0)) /\
  getSize (fst s0, snd s0) = (Ok 238, (fst s0, snd s0)).
Proof.
  intros w0 s0.
  split; [vm_compute; reflexivity|].
  apply (getters_lookup_reported_profile (fst s0) w0 (snd s0)).
  vm_compute; reflexivity.
Defined.

(** ** Acquisition events *)

Lemma add_events_add (es es' : list Event) (w : World) :
  add_events es' (add_events es w) = add_events (es ++ es') w.
Proof. unfold add_events. simpl. now rewrite app_assoc. Qed.

Lemma emit_run (e : Event) (o : FingerprintInscreen) (w : World) :
  emit e (o, w) = (tt, (o, add_events [e] w)).
Proof. reflexivity. Qed.

Lemma events_of_add {A} (m : M A) (o o' : FingerprintInscreen) (w : World)
    (es : list Event) (a : A) :
  m (o, w) = (a, (o', add_events es w)) -> events_of m (o, w) = es.
Proof.
  intros E. unfold events_of. rewrite E. simpl. apply drop_app_length.
Qed.

Lemma add_events_nil (w : World) : add_events [] w = w.
Proof. destruct w. unfold add_events. simpl. now rewrite app_nil_r. Qed.

Lemma handleAcquired_None (a v : Z) (o : FingerprintInscreen) (w : World) :
  mCallback o = None -> handleAcquired a v (o, w) = (Ok false, (o, w)).
Proof.
  intros E. unfold handleAcquired. rewrite bind_run. simpl. now rewrite E.
Qed.

Lemma handleAcquired_down (o : FingerprintInscreen) (w : World)
    (cb : IFingerprintInscreenCallback) :
  mCallback o = Some cb ->
  handleAcquired 6 10002 (o, w) =
  (Ok true, (o, add_events
                  (call_events "FingerDown() error: " EFingerDown (cb_onFingerDown cb)) w)).
Proof.
  intros E. unfold handleAcquired, call_events. rewrite bind_run. simpl. rewrite E.
  simpl. unfold onFingerDown. rewrite !bind_run, emit_run. simpl.
  destruct (cb_onFingerDown cb); simpl.
  - reflexivity.
  - unfold add_events. now rewrite <- app_assoc.
Qed.

Lemma handleAcquired_up (o : FingerprintInscreen) (w : World)
    (cb : IFingerprintInscreenCallback) :
  mCallback o = Some cb ->
  handleAcquired 6 10001 (o, w) =
  (Ok true, (o, add_events
                  (call_events "FingerUp() error: " EFingerUp (cb_onFingerUp cb)) w)).
Proof.
  intros E. unfold handleAcquired, call_events. rewrite bind_run. simpl. rewrite E.
  simpl. unfold onFingerUp. rewrite !bind_run, emit_run. simpl.
  destruct (cb_onFingerUp cb); simpl.
  - reflexivity.
  - unfold add_events. now rewrite <- app_assoc.
Qed.

Lemma handleAcquired_other (a v : Z) (o : FingerprintInscreen) (w : World)
    (cb : IFingerprintInscreenCallback) :
  mCallback o = Some cb ->
  ~ (a = 6 /\ (v = 10002 \/ v = 10001)) ->
  handleAcquired a v (o, w) =
  (Ok false, (o, add_events [ELogError (unhandled_message a v)] w)).
Proof.
  intros E N. unfold handleAcquired. rewrite bind_run. simpl. rewrite E.
  unfold FINGERPRINT_ACQUIRED_VENDOR.
  destruct (Z.eqb_spec a 6) as [->|Ha].
  - destruct (Z.eqb_spec v 10002) as [->|H2]; [exfalso; apply N; auto|].
    destruct (Z.eqb_spec v 10001) as [->|H1]; [exfalso; apply N; auto|].
    reflexivity.
  - reflexivity.
Qed.

Lemma callback_calls_call_events (name : string) (e : Event) (r : Return unit) :
  callback_calls (call_events name e r) = callback_calls [e].
Proof. unfold call_events. destruct r, e; reflexivity. Qed.

(** C1.  With a listener registered, [handleAcquired] returns true and
    calls exactly one listener method only for the two recognised pairs:
    (6, 10002) calls onFingerDown and (6, 10001) calls onFingerUp.  Every
    other pair returns false, calls neither method and changes neither the
    object nor the files or properties: it only writes a log line. *)
Theorem handleAcquired_dispatch (a v : Z) (o : FingerprintInscreen) (w : World)
    (cb : IFingerprintInscreenCallback) :
  mCallback o = Some cb ->
  let r := handleAcquired a v (o, w) in
  let calls := callback_calls (events_of (handleAcquired a v) (o, w)) in
  (a = 6 /\ v = 10002 -> fst r = Ok true /\ calls = [EFingerDown]) /\
  (a = 6 /\ v = 10001 -> fst r = Ok true /\ calls = [EFingerUp]) /\
  (~ (a = 6 /\ (v = 10002 \/ v = 10001)) ->
     fst r = Ok false /\ calls = [] /\
     fst (snd r) = o /\
     files (snd (snd r)) = files w /\
     properties (snd (snd r)) = properties w /\
     events_of (handleAcquired a v) (o, w) = [ELogError (unhandled_message a v)]).
Proof.
  intros E r calls. subst r calls. split; [|split].
  - intros [-> ->].
    rewrite (events_of_add _ _ _ _ _ _ (handleAcquired_down o w cb E)).
    rewrite (handleAcquired_down o w cb E), callback_calls_call_events.
    split; reflexivity.
  - intros [-> ->].
    rewrite (events_of_add _ _ _ _ _ _ (handleAcquired_up o w cb E)).
    rewrite (handleAcquired_up o w cb E), callback_calls_call_events.
    split; reflexivity.
  - intros N.
    rewrite (events_of_add _ _ _ _ _ _ (handleAcquired_other a v o w cb E N)).
    rewrite (handleAcquired_other a v o w cb E N).
    repeat split.
Qed.

Lemma handleAcquired_dispatch_witness :
  let o := {| mSehBiometricsFingerprintService := seh_service sample_world;
              mCallback := Some live_listener;
              mPreviousBrightness := "" |} in
  (fst (handleAcquired 6 10002 (o, sample_world)) = Ok true /\
   callback_calls (events_of (handleAcquired 6 10002) (o, sample_world)) = [EFingerDown]) /\
  (fst (handleAcquired 6 10001 (o, sample_world)) = Ok true /\
   callback_calls (events_of (handleAcquired 6 10001) (o, sample_world)) = [EFingerUp]) /\
  (fst (handleAcquired 5 10002 (o, sample_world)) = Ok false /\
   callback_calls (events_of (handleAcquired 5 10002) (o, sample_world)) = []).
Proof.
  intros o. split; [|split].
  - apply (handleAcquired_dispatch 6 10002 o sample_world live_listener eq_refl).
    split; reflexivity.
  - apply (handleAcquired_dispatch 6 10001 o sample_world live_listener eq_refl).
    split; reflexivity.
  - destruct (handleAcquired_dispatch 5 10002 o sample_world live_listener eq_refl)
      as (_ & _ & H).
    destruct H as (H1 & H2 & _); [lia | split; assumption].
Defined.

(** C4.  With no listener registered, [handleAcquired] returns false for
    every pair and does nothing else: no listener is called and the state
    is unchanged.  This is the situation right after construction and after
    [setCallback(nullptr)]. *)
Theorem handleAcquired_without_callback (a v : Z) (s : St) :
  (mCallback (fst s) = None ->
     handleAcquired a v s = (Ok false, s) /\
     events_of (handleAcquired a v) s = []) /\
  mCallback (fst (snd (setCallback None s))) = None /\
  handleAcquired a v (snd (setCallback None s))
    = (Ok false, snd (setCallback None s)) /\
  (forall w : World, mCallback (fst (FingerprintInscreen_new w)) = None).
Proof.
  assert (G : forall s : St, mCallback (fst s) = None ->
            handleAcquired a v s = (Ok false, s)).
  { intros [o w]. apply handleAcquired_None. }
  split; [|split; [|split]].
  - intros E. split; [now apply G|].
    unfold events_of. rewrite (G s E). simpl. apply drop_all.
  - reflexivity.
  - apply G. reflexivity.
  - intros w. now rewrite FingerprintInscreen_new_this.
Qed.

Lemma handleAcquired_without_callback_witness :
  handleAcquired 6 10002 (FingerprintInscreen_new sample_world)
    = (Ok false, FingerprintInscreen_new sample_world) /\
  events_of (handleAcquired 6 10002) (FingerprintInscreen_new sample_world) = [].
Proof.
  apply (handleAcquired_without_callback 6 10002 (FingerprintInscreen_new sample_world)).
  vm_compute; reflexivity.
Defined.

(** C9.  For the two recognised pairs with a listener registered,
    [handleAcquired] returns true whatever the listener call reports: a
    failed call is made once, logged with its description, and the result
    is still a completed call carrying true. *)
Theorem handleAcquired_callback_failure (o : FingerprintInscreen) (w : World)
    (cb : IFingerprintInscreenCallback) :
  mCallback o = Some cb ->
  fst (handleAcquired 6 10002 (o, w)) = Ok true /\
  fst (handleAcquired 6 10001 (o, w)) = Ok true /\
  (isOk (cb_onFingerDown cb) = false ->
     events_of (handleAcquired 6 10002) (o, w) =
       [EFingerDown;
        ELogError ("FingerDown() error: " +:+ description (cb_onFingerDown cb))]) /\
  (isOk (cb_onFingerUp cb) = false ->
     events_of (handleAcquired 6 10001) (o, w) =
       [EFingerUp;
        ELogError ("FingerUp() error: " +:+ description (cb_onFingerUp cb))]).
Proof.
  intros E.
  rewrite (events_of_add _ _ _ _ _ _ (handleAcquired_down o w cb E)).
  rewrite (events_of_add _ _ _ _ _ _ (handleAcquired_up o w cb E)).
  rewrite (handleAcquired_down o w cb E), (handleAcquired_up o w cb E).
  unfold call_events.
  repeat split; intros ->; reflexivity.
Qed.

Lemma handleAcquired_callback_failure_witness :
  let o := {| mSehBiometricsFingerprintService := seh_service sample_world;
              mCallback := Some dead_listener;
              mPreviousBrightness := "" |} in
  fst (handleAcquired 6 10002 (o, sample_world)) = Ok true /\
  fst (handleAcquired 6 10001 (o, sample_world)) = Ok true /\
  events_of (handleAcquired 6 10002) (o, sample_world) =
    [EFingerDown; ELogError "FingerDown() error: DEAD_OBJECT"] /\
  events_of (handleAcquired 6 10001) (o, sample_world) =
    [EFingerUp; ELogError "FingerUp() error: DEAD_OBJECT"].
Proof.
  intros o.
  destruct (handleAcquired_callback_failure o sample_world dead_listener eq_refl)
    as (H1 & H2 & H3 & H4).
  split; [exact H1 | split; [exact H2 | split]].
  - apply H3. reflexivity.
  - apply H4. reflexivity.
Defined.

(** ** Press, release and hide *)

Lemma get_run (path def : string) (o : FingerprintInscreen) (w : World) :
  get path def (o, w) =
  (match files w !! path with
   | None => def
   | Some content => match extract content with
                     | None => def
                     | Some result => result
                     end
   end, (o, w)).
Proof.
  unfold get. rewrite bind_run. simpl.
  destruct (files w !! path) as [content|]; [|reflexivity].
  destruct (extract content); reflexivity.
Qed.

(** The answer of the vendor service decides the status [sehRequest]
    returns; [requestResult] drops the payload. *)
Lemma sehRequest_run (svc : ISehBiometricsFingerprint) (state param : Z)
    (data : list Z) (o : FingerprintInscreen) (w : World) :
  sehRequest svc state param data requestResult (o, w)
  = (match seh_answer svc state param data with
     | Ok _ => Ok tt
     | NotOk d => NotOk d
     end, (o, add_events [ESehRequest state param data] w)).
Proof.
  unfold sehRequest. rewrite bind_run, emit_run. simpl.
  destruct (seh_answer svc state param data) as [[code payload]|d]; reflexivity.
Qed.

Lemma set_mPreviousBrightness_run (v : string) (o : FingerprintInscreen) (w : World) :
  set_mPreviousBrightness v (o, w) = (tt, (with_mPreviousBrightness v o, w)).
Proof. reflexivity. Qed.

Lemma set_run' (path value : string) (o : FingerprintInscreen) (w : World) :
  set path value (o, w) = (tt, (o, add_events [EWrite path value] (with_file path value w))).
Proof. reflexivity. Qed.

Lemma add_events_with_file (es : list Event) (path content : string) (w : World) :
  with_file path content (add_events es w) = add_events es (with_file path content w).
Proof. reflexivity. Qed.

Lemma lift_bind_run {A B} (m : M A) (k : A -> MA B) (s : St) :
  (lift m ≫= k) s = k (fst (m s)) (snd (m s)).
Proof. unfold mbind, MA_bind, lift. destruct (m s); reflexivity. Qed.

Lemma lift_run {A} (m : M A) (s : St) :
  lift m s = Returned (fst (m s)) (snd (m s)).
Proof. unfold lift. destruct (m s); reflexivity. Qed.

Lemma SEM_AOSP_FQNAME_bytes_eq :
  stringToVec SEM_AOSP_FQNAME = SEM_AOSP_FQNAME_bytes.
Proof. reflexivity. Qed.

(** [onPress], by what the service handle and the transaction turn out to
    be: the saved value and the write of "331" happen in every case. *)
Lemma onPress_cases (o : FingerprintInscreen) (w : World) :
  onPress (o, w) =
  match mSehBiometricsFingerprintService o with
  | None =>
      Aborted NullDereference
        (with_mPreviousBrightness (fst (get BRIGHTNESS_PATH "" (o, w))) o,
         add_events [EWrite BRIGHTNESS_PATH "331"]
           (with_file BRIGHTNESS_PATH "331" w))
  | Some svc =>
      match seh_answer svc SEM_FINGER_STATE SEM_PARAM_PRESSED
              (stringToVec SEM_AOSP_FQNAME) with
      | Ok _ =>
          Returned Void
            (with_mPreviousBrightness (fst (get BRIGHTNESS_PATH "" (o, w))) o,
             add_events [EWrite BRIGHTNESS_PATH "331";
                         ESehRequest SEM_FINGER_STATE SEM_PARAM_PRESSED
                           (stringToVec SEM_AOSP_FQNAME)]
               (with_file BRIGHTNESS_PATH "331" w))
      | NotOk d =>
          Aborted (UncheckedFailedReturn d)
            (with_mPreviousBrightness (fst (get BRIGHTNESS_PATH "" (o, w))) o,
             add_events [EWrite BRIGHTNESS_PATH "331";
                         ESehRequest SEM_FINGER_STATE SEM_PARAM_PRESSED
                           (stringToVec SEM_AOSP_FQNAME)]
               (with_file BRIGHTNESS_PATH "331" w))
      end
  end.
Proof.
  unfold onPress. rewrite lift_bind_run, get_run. cbn [fst snd].
  rewrite lift_bind_run, set_mPreviousBrightness_run. cbn [fst snd].
  rewrite lift_bind_run, set_run'. cbn [fst snd].
  rewrite lift_bind_run. cbn [getThis fst snd mSehBiometricsFingerprintService
                               with_mPreviousBrightness].
  destruct (mSehBiometricsFingerprintService o) as [svc|]; [|reflexivity].
  cbn [deref]. unfold mbind at 1, MA_bind at 1, mret at 1, MA_ret at 1.
  rewrite lift_bind_run, sehRequest_run. cbn [fst snd].
  rewrite add_events_add.
  destruct (seh_answer svc SEM_FINGER_STATE SEM_PARAM_PRESSED
              (stringToVec SEM_AOSP_FQNAME)); reflexivity.
Qed.

Lemma restore_brightness_run (o : FingerprintInscreen) (w : World) :
  restore_brightness (o, w) =
  (tt, (with_mPreviousBrightness "" o,
        add_events (restore_events (mPreviousBrightness o))
          (restore_files (mPreviousBrightness o) w))).
Proof.
  unfold restore_brightness, restore_events, restore_files.
  rewrite bind_run. cbn [getThis fst snd].
  destruct (String.eqb_spec (mPreviousBrightness o) "") as [E|N]; simpl.
  - rewrite add_events_nil. destruct o as [svc cb prev]. simpl in E. now subst prev.
  - rewrite bind_run, set_run'. reflexivity.
Qed.

Lemma onHideFODView_run (o : FingerprintInscreen) (w : World) :
  onHideFODView (o, w) =
  (Void,
   (with_mPreviousBrightness "" o,
    add_events (EWrite TSP_CMD_PATH "fod_enable,0"
                :: restore_events (mPreviousBrightness o))
      (restore_files (mPreviousBrightness o)
         (with_file TSP_CMD_PATH "fod_enable,0" w)))).
Proof.
  unfold onHideFODView. rewrite bind_run, set_run'. cbn [fst snd].
  rewrite bind_run, restore_brightness_run. cbn [fst snd].
  unfold restore_files. destruct (String.eqb _ ""); now rewrite ?add_events_with_file, add_events_add.
Qed.

(** [onRelease], by the same cases: a null handle ends the process before
    anything is done, a failed transaction right after the request. *)
Lemma onRelease_cases (o : FingerprintInscreen) (w : World) :
  onRelease (o, w) =
  match mSehBiometricsFingerprintService o with
  | None => Aborted NullDereference (o, w)
  | Some svc =>
      match seh_answer svc SEM_FINGER_STATE SEM_PARAM_RELEASED
              (stringToVec SEM_AOSP_FQNAME) with
      | Ok _ =>
          Returned Void
            (with_mPreviousBrightness "" o,
             add_events (ESehRequest SEM_FINGER_STATE SEM_PARAM_RELEASED
                           (stringToVec SEM_AOSP_FQNAME)
                         :: EWrite TSP_CMD_PATH "fod_enable,0"
                         :: restore_events (mPreviousBrightness o))
               (restore_files (mPreviousBrightness o)
                  (with_file TSP_CMD_PATH "fod_enable,0" w)))
      | NotOk d =>
          Aborted (UncheckedFailedReturn d)
            (o, add_events [ESehRequest SEM_FINGER_STATE SEM_PARAM_RELEASED
                              (stringToVec SEM_AOSP_FQNAME)] w)
      end
  end.
Proof.
  unfold onRelease. rewrite lift_bind_run. cbn [getThis fst snd].
  destruct (mSehBiometricsFingerprintService o) as [svc|]; [|reflexivity].
  cbn [deref]. unfold mbind at 1, MA_bind at 1, mret at 1, MA_ret at 1.
  rewrite lift_bind_run, sehRequest_run. cbn [fst snd].
  destruct (seh_answer svc SEM_FINGER_STATE SEM_PARAM_RELEASED
              (stringToVec SEM_AOSP_FQNAME)); [|reflexivity].
  cbn [discard isOk]. unfold mbind at 1, MA_bind at 1, mret at 1, MA_ret at 1.
  rewrite lift_bind_run, set_run'. cbn [fst snd].
  rewrite lift_bind_run, restore_brightness_run. cbn [fst snd].
  unfold mret, MA_ret, restore_files.
  destruct (String.eqb _ "");
    now rewrite ?add_events_with_file, !add_events_add.
Qed.

Lemma request_completes_inv (o : FingerprintInscreen) (param : Z) :
  request_completes o param = true ->
  exists svc x,
    mSehBiometricsFingerprintService o = Some svc /\
    seh_answer svc SEM_FINGER_STATE param (stringToVec SEM_AOSP_FQNAME) = Ok x.
Proof.
  unfold request_completes.
  destruct (mSehBiometricsFingerprintService o) as [svc|]; [|discriminate].
  destruct (seh_answer svc SEM_FINGER_STATE param (stringToVec SEM_AOSP_FQNAME))
    as [x|d] eqn:E; [|discriminate].
  intros _. now exists svc, x.
Qed.

Lemma onPress_ok (o : FingerprintInscreen) (w : World) :
  request_completes o SEM_PARAM_PRESSED = true ->
  onPress (o, w) =
  Returned Void
    (with_mPreviousBrightness (fst (get BRIGHTNESS_PATH "" (o, w))) o,
     add_events [EWrite BRIGHTNESS_PATH "331";
                 ESehRequest SEM_FINGER_STATE SEM_PARAM_PRESSED
                   (stringToVec SEM_AOSP_FQNAME)]
       (with_file BRIGHTNESS_PATH "331" w)).
Proof.
  intros H. destruct (request_completes_inv o _ H) as (svc & x & E1 & E2).
  now rewrite onPress_cases, E1, E2.
Qed.

Lemma onRelease_ok (o : FingerprintInscreen) (w : World) :
  request_completes o SEM_PARAM_RELEASED = true ->
  onRelease (o, w) =
  Returned Void
    (with_mPreviousBrightness "" o,
     add_events (ESehRequest SEM_FINGER_STATE SEM_PARAM_RELEASED
                   (stringToVec SEM_AOSP_FQNAME)
                 :: EWrite TSP_CMD_PATH "fod_enable,0"
                 :: restore_events (mPreviousBrightness o))
       (restore_files (mPreviousBrightness o)
          (with_file TSP_CMD_PATH "fod_enable,0" w))).
Proof.
  intros H. destruct (request_completes_inv o _ H) as (svc & x & E1 & E2).
  now rewrite onRelease_cases, E1, E2.
Qed.


Lemma restore_files_nonempty (v : string) (w : World) :
  v <> "" -> restore_files v w = with_file BRIGHTNESS_PATH v w.
Proof.
  intros N. unfold restore_files. apply String.eqb_neq in N. now rewrite N.
Qed.

Lemma writes_to_brightness_restore (prev : string) :
  writes_to BRIGHTNESS_PATH (restore_events prev)
  = if String.eqb prev "" then [] else [prev].
Proof. unfold restore_events. destruct (String.eqb prev ""); reflexivity. Qed.

Lemma writes_to_tsp_restore (prev : string) :
  writes_to TSP_CMD_PATH (restore_events prev) = [].
Proof. unfold restore_events. destruct (String.eqb prev ""); reflexivity. Qed.

Lemma trace_restore_files (prev : string) (w : World) :
  trace (restore_files prev w) = trace w.
Proof. unfold restore_files. now destruct (String.eqb prev ""). Qed.

Lemma effects_of_final {A} (m : MA A) (o o' : FingerprintInscreen)
    (w w' : World) (es : list Event) :
  final (m (o, w)) = (o', add_events es w') -> trace w' = trace w ->
  effects_of m (o, w) = es.
Proof.
  intros E T. unfold effects_of. rewrite E. simpl. rewrite T.
  apply drop_app_length.
Qed.

Lemma effects_of_onRelease_ok (o : FingerprintInscreen) (w : World) :
  request_completes o SEM_PARAM_RELEASED = true ->
  effects_of onRelease (o, w) =
  ESehRequest SEM_FINGER_STATE SEM_PARAM_RELEASED (stringToVec SEM_AOSP_FQNAME)
  :: EWrite TSP_CMD_PATH "fod_enable,0"
  :: restore_events (mPreviousBrightness o).
Proof.
  intros H. eapply effects_of_final.
  - rewrite (onRelease_ok o w H). reflexivity.
  - now rewrite trace_restore_files.
Qed.

Lemma effects_of_onHideFODView (o : FingerprintInscreen) (w : World) :
  effects_of (lift onHideFODView) (o, w) =
  EWrite TSP_CMD_PATH "fod_enable,0" :: restore_events (mPreviousBrightness o).
Proof.
  eapply effects_of_final.
  - rewrite lift_run, onHideFODView_run. reflexivity.
  - now rewrite trace_restore_files.
Qed.

Lemma TSP_ne_BRIGHTNESS : TSP_CMD_PATH <> BRIGHTNESS_PATH.
Proof. discriminate. Qed.

(** The brightness file after a release that went through and found [prev]
    saved, in a world where the file held [c] before. *)
Lemma brightness_after_release (prev c : string) (o : FingerprintInscreen) (w : World) :
  request_completes o SEM_PARAM_RELEASED = true ->
  mPreviousBrightness o = prev ->
  files w !! BRIGHTNESS_PATH = Some c ->
  files (snd (final (onRelease (o, w)))) !! BRIGHTNESS_PATH
  = Some (if String.eqb prev "" then c else prev).
Proof.
  intros H <- Hc. rewrite (onRelease_ok o w H). cbn [final fst snd].
  unfold restore_files.
  destruct (String.eqb (mPreviousBrightness o) ""); simpl.
  - rewrite lookup_insert_ne by apply TSP_ne_BRIGHTNESS. exact Hc.
  - apply lookup_insert_eq.
Qed.





Lemma closer_completes_inv (c : Closer) (o : FingerprintInscreen) (w : World) :
  closer_completes c o = true ->
  close c (o, w) =
  Returned Void
    (with_mPreviousBrightness "" o,
     add_events
       (match c with
        | ByRelease =>
            [ESehRequest SEM_FINGER_STATE SEM_PARAM_RELEASED
               (stringToVec SEM_AOSP_FQNAME)]
        | ByHide => []
        end ++ EWrite TSP_CMD_PATH "fod_enable,0"
            :: restore_events (mPreviousBrightness o))%list
       (restore_files (mPreviousBrightness o)
          (with_file TSP_CMD_PATH "fod_enable,0" w))).
Proof.
  destruct c; cbn [closer_completes close]; intros H.
  - now rewrite (onRelease_ok o w H).
  - now rewrite lift_run, onHideFODView_run.
Qed.

Lemma effects_of_close (c : Closer) (o : FingerprintInscreen) (w : World) :
  closer_completes c o = true ->
  returned (close c (o, w)) = Some Void /\
  writes_to TSP_CMD_PATH (effects_of (close c) (o, w)) = ["fod_enable,0"] /\
  writes_to BRIGHTNESS_PATH (effects_of (close c) (o, w))
    = (if String.eqb (mPreviousBrightness o) "" then [] else [mPreviousBrightness o]) /\
  fst (final (close c (o, w))) = with_mPreviousBrightness "" o.
Proof.
  intros H. pose proof (closer_completes_inv c o w H) as E.
  assert (F : effects_of (close c) (o, w) =
              (match c with
               | ByRelease =>
                   [ESehRequest SEM_FINGER_STATE SEM_PARAM_RELEASED
                      (stringToVec SEM_AOSP_FQNAME)]
               | ByHide => []
               end ++ EWrite TSP_CMD_PATH "fod_enable,0"
                   :: restore_events (mPreviousBrightness o))%list).
  { eapply effects_of_final; [rewrite E; reflexivity|].
    now rewrite trace_restore_files. }
  rewrite F, E. cbn [returned final fst].
  split; [reflexivity|]. split; [|split; [|reflexivity]].
  - unfold writes_to. rewrite omap_app.
    change (omap _ (EWrite TSP_CMD_PATH "fod_enable,0"
                    :: restore_events (mPreviousBrightness o)))
      with ("fod_enable,0"
            :: writes_to TSP_CMD_PATH (restore_events (mPreviousBrightness o))).
    rewrite writes_to_tsp_restore. now destruct c.
  - unfold writes_to. rewrite omap_app.
    change (omap _ (EWrite TSP_CMD_PATH "fod_enable,0"
                    :: restore_events (mPreviousBrightness o)))
      with (writes_to BRIGHTNESS_PATH (restore_events (mPreviousBrightness o))).
    rewrite writes_to_brightness_restore. now destruct c.
Qed.



(** ** The vendor signal *)

Lemma stringToVec_null_terminated (str : string) :
  length (stringToVec str) = S (String.length str) /\
  last (stringToVec str) = Some 0.
Proof.
  unfold stringToVec. split.
  - rewrite length_app, length_map. simpl.
    assert (L : length (list_ascii_of_string str) = String.length str)
      by (induction str; simpl; congruence).
    rewrite L. lia.
  - apply last_snoc.
Qed.

(** C8 does not hold of the code.  With a vendor service whose transaction
    fails, [onPress] forwards (22, 2, name) and [onRelease] forwards
    (22, 1, name), the name being these 68 bytes, but neither returns: the
    unchecked [Return<void>] ends the process, for [onPress] after the
    brightness was raised to "331", for [onRelease] before "fod_enable,0"
    and before the saved value "120" is written back.  With a null handle
    both end at the dereference.  [handleAcquired] tests [isOk()] on its
    calls and goes on. *)
Theorem failed_signal_ends_process :
  let failing := {| mSehBiometricsFingerprintService := Some failing_service;
                    mCallback := None;
                    mPreviousBrightness := "120" |} in
  let unbound := {| mSehBiometricsFingerprintService := None;
                    mCallback := None;
                    mPreviousBrightness := "120" |} in
  returned (onPress (failing, sample_world)) = None /\
  effects_of onPress (failing, sample_world) =
    [EWrite BRIGHTNESS_PATH "331"; ESehRequest 22 2 SEM_AOSP_FQNAME_bytes] /\
  onRelease (failing, sample_world) =
    Aborted (UncheckedFailedReturn "DEAD_OBJECT")
      (failing, add_events [ESehRequest 22 1 SEM_AOSP_FQNAME_bytes] sample_world) /\
  writes_to TSP_CMD_PATH (effects_of onRelease (failing, sample_world)) = [] /\
  writes_to BRIGHTNESS_PATH (effects_of onRelease (failing, sample_world)) = [] /\
  returned (onPress (unbound, sample_world)) = None /\
  effects_of onPress (unbound, sample_world) = [EWrite BRIGHTNESS_PATH "331"] /\
  onRelease (unbound, sample_world) = Aborted NullDereference (unbound, sample_world).
Proof.
  intros failing unbound. subst failing unbound.
  rewrite !onRelease_cases. cbn [mSehBiometricsFingerprintService failing_service seh_answer].
  unfold effects_of. rewrite !onPress_cases.
  cbn [mSehBiometricsFingerprintService failing_service seh_answer returned final snd].
  repeat split.
Qed.

(** With the service of [sample_world], which completes every transaction,
    the same two calls return. *)
Example completed_signal_returns :
  let o := fst (FingerprintInscreen_new sample_world) in
  returned (onPress (o, sample_world)) = Some Void /\
  returned (onRelease (o, sample_world)) = Some Void.
Proof. vm_compute. split; reflexivity. Qed.

(** * Further properties of the code *)

(** ** Reading and writing files *)

Lemma skipws_all_space (ws s : string) :
  all_space ws = true -> skipws (ws +:+ s) = skipws s.
Proof.
  induction ws as [|c ws IH]; simpl; [reflexivity|].
  intros H. apply andb_true_iff in H as [Hc Hws]. rewrite Hc. now apply IH.
Qed.

Lemma skipws_token_start (tok rest : string) :
  tok <> "" -> no_space tok = true -> skipws (tok +:+ rest) = tok +:+ rest.
Proof.
  destruct tok as [|c tok]; [congruence|]. simpl. intros _ H.
  apply andb_true_iff in H as [Hc _]. apply negb_true_iff in Hc. now rewrite Hc.
Qed.

Lemma token_app (tok rest : string) :
  no_space tok = true -> ends_token rest = true -> token (tok +:+ rest) = tok.
Proof.
  induction tok as [|c tok IH]; simpl.
  - intros _ H. destruct rest as [|c r]; [reflexivity|]. simpl in *. now rewrite H.
  - intros H R. apply andb_true_iff in H as [Hc Ht]. apply negb_true_iff in Hc.
    rewrite Hc. now rewrite IH.
Qed.

Lemma extract_decomposed (ws tok rest : string) :
  all_space ws = true -> tok <> "" -> no_space tok = true ->
  ends_token rest = true ->
  extract (ws +:+ tok +:+ rest) = Some tok.
Proof.
  intros Hws Hne Htok Hrest. unfold extract.
  rewrite (skipws_all_space ws _ Hws), (skipws_token_start tok rest Hne Htok),
    (token_app tok rest Htok Hrest).
  destruct tok; [congruence | reflexivity].
Qed.

Lemma extract_all_space (content : string) :
  all_space content = true -> extract content = None.
Proof.
  intros H. unfold extract.
  assert (E : skipws content = "").
  { induction content as [|c s IH]; simpl; [reflexivity|].
    simpl in H. apply andb_true_iff in H as [Hc Hs]. rewrite Hc. now apply IH. }
  now rewrite E.
Qed.

Lemma token_no_space_b (s : string) : no_space (token s) = true.
Proof.
  induction s as [|c s IH]; simpl; [reflexivity|].
  destruct (isspace c) eqn:E; simpl; [reflexivity | now rewrite E, IH].
Qed.

Lemma extract_no_space (content v : string) :
  extract content = Some v -> no_space v = true.
Proof.
  unfold extract. pose proof (token_no_space_b (skipws content)) as H.
  destruct (token (skipws content)); [discriminate|]. now intros [= <-].
Qed.

Lemma append_empty_r (v : string) : v +:+ "" = v.
Proof.
  induction v as [|c v IH]; [reflexivity|].
  change (String c v +:+ "") with (String c (v +:+ "")). now rewrite IH.
Qed.

(** X1.  [get] never changes the state.  It returns the default when the
    file is missing or holds nothing but white space; when the content is
    white space, then a non-empty run [tok] of other characters, then
    nothing or more text starting with white space, it returns [tok]. *)
Theorem get_first_token (path def : string) (o : FingerprintInscreen) (w : World) :
  snd (get path def (o, w)) = (o, w) /\
  (files w !! path = None -> fst (get path def (o, w)) = def) /\
  (forall content : string,
     files w !! path = Some content -> all_space content = true ->
     fst (get path def (o, w)) = def) /\
  (forall ws tok rest : string,
     files w !! path = Some (ws +:+ tok +:+ rest) ->
     all_space ws = true -> tok <> "" -> no_space tok = true ->
     ends_token rest = true ->
     fst (get path def (o, w)) = tok).
Proof.
  rewrite get_run. cbn [fst snd]. split; [reflexivity|]. split; [|split].
  - now intros ->.
  - intros content -> H. now rewrite (extract_all_space _ H).
  - intros ws tok rest -> Hws Hne Htok Hrest.
    now rewrite (extract_decomposed ws tok rest Hws Hne Htok Hrest).
Qed.

Lemma get_first_token_witness :
  fst (get BRIGHTNESS_PATH "dflt"
         (fst (FingerprintInscreen_new sample_world),
          with_file BRIGHTNESS_PATH ("  " +:+ "120" +:+ (newline +:+ "77")) sample_world))
  = "120" /\
  fst (get TSP_CMD_PATH "dflt"
         (fst (FingerprintInscreen_new sample_world), sample_world)) = "dflt" /\
  fst (get BRIGHTNESS_PATH "dflt"
         (fst (FingerprintInscreen_new sample_world),
          with_file BRIGHTNESS_PATH (" " +:+ newline) sample_world)) = "dflt".
Proof.
  split; [|split].
  - apply (get_first_token BRIGHTNESS_PATH "dflt" _
             (with_file BRIGHTNESS_PATH ("  " +:+ "120" +:+ (newline +:+ "77")) sample_world)
           ) with (ws := "  ") (rest := newline +:+ "77").
    + vm_compute; reflexivity.
    + reflexivity.
    + discriminate.
    + reflexivity.
    + reflexivity.
  - apply (get_first_token TSP_CMD_PATH "dflt" _ sample_world).
    vm_compute; reflexivity.
  - apply (get_first_token BRIGHTNESS_PATH "dflt" _
             (with_file BRIGHTNESS_PATH (" " +:+ newline) sample_world))
      with (content := " " +:+ newline).
    + vm_compute; reflexivity.
    + reflexivity.
Defined.

(** X2.  Writing a non-empty value without white space with [set] and
    reading the same path with [get] gives the value back; a [get] on any
    other path is not affected by the write. *)
Theorem set_get_round_trip (path v def : string) (s : St) :
  v <> "" -> no_space v = true ->
  fst (get path def (snd (set path v s))) = v /\
  (forall other : string, other <> path ->
     fst (get other def (snd (set path v s))) = fst (get other def s)).
Proof.
  intros Hne Hv. destruct s as [o w]. rewrite set_run'. cbn [snd]. split.
  - rewrite get_run. simpl. rewrite lookup_insert_eq.
    pose proof (extract_decomposed "" v "" eq_refl Hne Hv eq_refl) as E.
    change ("" +:+ v +:+ "") with (v +:+ "") in E.
    rewrite append_empty_r in E. now rewrite E.
  - intros other Ho. rewrite !get_run. simpl.
    rewrite lookup_insert_ne by congruence. reflexivity.
Qed.

Lemma set_get_round_trip_witness :
  fst (get BRIGHTNESS_PATH ""
         (snd (set BRIGHTNESS_PATH "255" (FingerprintInscreen_new sample_world))))
  = "255".
Proof.
  apply (set_get_round_trip BRIGHTNESS_PATH "255" ""
           (FingerprintInscreen_new sample_world)).
  - discriminate.
  - reflexivity.
Defined.

(** ** Byte vectors *)

Lemma int8_of_char_range (c : ascii) : -128 <= int8_of_char c <= 127.
Proof.
  unfold int8_of_char. pose proof (nat_ascii_bounded c) as B.
  destruct (Z.ltb_spec (Z.of_nat (nat_of_ascii c)) 128); lia.
Qed.

Lemma int8_of_char_inj (a b : ascii) :
  int8_of_char a = int8_of_char b -> a = b.
Proof.
  unfold int8_of_char. intros H.
  pose proof (nat_ascii_bounded a) as Ba. pose proof (nat_ascii_bounded b) as Bb.
  assert (E : nat_of_ascii a = nat_of_ascii b).
  { destruct (Z.ltb_spec (Z.of_nat (nat_of_ascii a)) 128),
             (Z.ltb_spec (Z.of_nat (nat_of_ascii b)) 128); lia. }
  rewrite <- (ascii_nat_embedding a), <- (ascii_nat_embedding b). now rewrite E.
Qed.

Lemma int8_of_char_zero (c : ascii) : int8_of_char c = 0 <-> c = Ascii.zero.
Proof.
  split; [|now intros ->].
  intros H. apply int8_of_char_inj. now rewrite H.
Qed.

Lemma list_ascii_of_string_inj (s1 s2 : string) :
  list_ascii_of_string s1 = list_ascii_of_string s2 -> s1 = s2.
Proof.
  intros H. rewrite <- (string_of_list_ascii_of_string s1),
    <- (string_of_list_ascii_of_string s2). now rewrite H.
Qed.

(** X3.  For every string, [stringToVec] yields one element more than the
    string has characters, ends in 0, keeps every element within int8, and
    holds a 0 before its last element only where the string itself holds a
    NUL character. *)
Theorem stringToVec_shape (str : string) :
  length (stringToVec str) = S (String.length str) /\
  last (stringToVec str) = Some 0 /\
  Forall (fun z => -128 <= z <= 127) (stringToVec str) /\
  (forall i : nat,
     removelast (stringToVec str) !! i = Some 0 <->
     list_ascii_of_string str !! i = Some Ascii.zero).
Proof.
  split; [apply stringToVec_null_terminated|].
  split; [apply stringToVec_null_terminated|].
  unfold stringToVec. split.
  - apply Forall_app. split.
    + apply Forall_map, Forall_true. intros c. apply int8_of_char_range.
    + repeat constructor; lia.
  - intros i. rewrite removelast_last, list_lookup_fmap.
    destruct (list_ascii_of_string str !! i) as [c|]; simpl.
    + split; intros [= H]; f_equal; now apply int8_of_char_zero.
    + split; discriminate.
Qed.

(** X4.  [stringToVec] is injective: two strings with the same byte vector
    are the same string. *)
Theorem stringToVec_injective (s1 s2 : string) :
  stringToVec s1 = stringToVec s2 -> s1 = s2.
Proof.
  unfold stringToVec. intros H. apply app_inv_tail in H.
  apply list_ascii_of_string_inj.
  revert H. generalize (list_ascii_of_string s1) (list_ascii_of_string s2).
  induction l as [|a l IH]; intros [|b l']; simpl; try discriminate; [reflexivity|].
  intros [= Hab Hl]. f_equal; [now apply int8_of_char_inj | now apply IH].
Qed.

Lemma stringToVec_injective_witness :
  "android.hardware.biometrics.fingerprint@2.1::" +:+ "IBiometricsFingerprint"
  = SEM_AOSP_FQNAME.
Proof.
  apply (stringToVec_injective
           ("android.hardware.biometrics.fingerprint@2.1::" +:+ "IBiometricsFingerprint")
           SEM_AOSP_FQNAME).
  vm_compute; reflexivity.
Defined.

(** ** Construction *)

(** X5.  Whatever the bootloader identifier, construction ends by writing
    "fod_enable,1,1,0", which is what the command file then holds; it
    leaves every other file and the properties alone, sends no vendor
    request, calls no listener, and yields an object with the service
    handle of the platform, no listener and nothing saved. *)
Theorem construction_frame (w : World) :
  let s := FingerprintInscreen_new w in
  fst s = {| mSehBiometricsFingerprintService := seh_service w;
             mCallback := None;
             mPreviousBrightness := "" |} /\
  last (construction_events w) = Some (EWrite TSP_CMD_PATH "fod_enable,1,1,0") /\
  files (snd s) !! TSP_CMD_PATH = Some "fod_enable,1,1,0" /\
  (forall path : string, path <> TSP_CMD_PATH ->
     files (snd s) !! path = files w !! path) /\
  properties (snd s) = properties w /\
  seh_requests (construction_events w) = [] /\
  callback_calls (construction_events w) = [].
Proof.
  intros s. subst s.
  split; [apply FingerprintInscreen_new_this|].
  rewrite construction_events_eq.
  split; [destruct (spec_resolve _); reflexivity|].
  assert (F : forall path : string,
             files (snd (FingerprintInscreen_new w)) !! path =
             if decide (path = TSP_CMD_PATH) then Some "fod_enable,1,1,0"
             else files w !! path).
  { intros path. unfold FingerprintInscreen_new, constructor_body.
    rewrite bind_run, getBootloader_run. cbn [fst snd].
    destruct (bool_decide (find (bootloader_id w) "A525" <> npos)).
    - run. destruct (decide (path = TSP_CMD_PATH)) as [->|N].
      + apply lookup_insert_eq.
      + rewrite !lookup_insert_ne by congruence. reflexivity.
    - rewrite bind_run, bind_run, getBootloader_run. cbn [fst snd].
      destruct (bool_decide (find (bootloader_id w) "A725" <> npos)); run;
        (destruct (decide (path = TSP_CMD_PATH)) as [->|N];
         [apply lookup_insert_eq
         | rewrite !lookup_insert_ne by congruence; reflexivity]). }
  split; [rewrite F; now destruct (decide _)|].
  split; [intros path N; rewrite F; now destruct (decide _)|].
  split; [apply (constructor_body_frame _ w)|].
  split; destruct (spec_resolve _); reflexivity.
Qed.

(** X6.  When the bootloader property is missing or empty, the identifier
    is the empty string: the three getters return 0 and construction logs
    the error and writes no rectangle command. *)
Theorem missing_bootloader_property (o : FingerprintInscreen) (w : World) :
  properties w !! BOOTLOADER_PROP = None \/
  properties w !! BOOTLOADER_PROP = Some "" ->
  fst (getBootloader (o, w)) = "" /\
  fst (getPositionX (o, w)) = Ok 0 /\
  fst (getPositionY (o, w)) = Ok 0 /\
  fst (getSize (o, w)) = Ok 0 /\
  construction_events w =
    [ELogError "Device is not an A52 or A72, not setting set_fod_rect";
     EWrite TSP_CMD_PATH "fod_enable,1,1,0"].
Proof.
  intros H.
  assert (E : bootloader_id w = "").
  { unfold bootloader_id. destruct H as [-> | ->]; reflexivity. }
  rewrite getBootloader_run, getPositionX_run, getPositionY_run, getSize_run,
    construction_events_eq, E.
  repeat split.
Qed.

Lemma missing_bootloader_property_witness :
  let w := {| files := files sample_world; properties := ∅;
              seh_service := seh_service sample_world; trace := [] |} in
  fst (getPositionX (fst (FingerprintInscreen_new w), w)) = Ok 0 /\
  construction_events w =
    [ELogError "Device is not an A52 or A72, not setting set_fod_rect";
     EWrite TSP_CMD_PATH "fod_enable,1,1,0"].
Proof.
  intros w.
  destruct (missing_bootloader_property (fst (FingerprintInscreen_new w)) w)
    as (_ & H1 & _ & _ & H2).
  - left. vm_compute; reflexivity.
  - split; [exact H1 | exact H2].
Defined.

(** X7.  The rectangle programmed at construction is the square whose
    top-left corner is the reported position and whose side is the reported
    size: for every identifier either no rectangle is written, or the one
    written is (x, y, x + size, y + size) for the getters' x, y and size. *)
Theorem rect_is_square_of_size (b : string) (o : FingerprintInscreen) (w : World) :
  let w' := with_bootloader b w in
  rects_written (construction_events w') = [] \/
  exists x y size : Z,
    fst (getPositionX (o, w')) = Ok x /\
    fst (getPositionY (o, w')) = Ok y /\
    fst (getSize (o, w')) = Ok size /\
    0 < size /\
    rects_written (construction_events w') = [(x, y, x + size, y + size)].
Proof.
  intros w'. subst w'.
  rewrite getPositionX_run, getPositionY_run, getSize_run,
    construction_events_eq, bootloader_id_with.
  destruct (spec_resolve b).
  - right. exists 421, 2018, 238. repeat split.
  - right. exists 426, 2031, 228. repeat split.
  - left. reflexivity.
Qed.

(** ** Release and hide *)

(** X8.  What the vendor request makes of a press and of a release.  With
    a null handle [onPress] ends the process after raising the brightness
    and [onRelease] ends it before doing anything.  With a failed
    transaction [onPress] ends it after the write of "331" and the request,
    and [onRelease] right after the request: "fod_enable,0" is not written
    and the saved brightness is not written back.  Only when the request
    goes through does either call return, with [Void]. *)
Theorem signal_outcome_decides (o : FingerprintInscreen) (w : World) :
  (mSehBiometricsFingerprintService o = None ->
     returned (onPress (o, w)) = None /\
     effects_of onPress (o, w) = [EWrite BRIGHTNESS_PATH "331"] /\
     onRelease (o, w) = Aborted NullDereference (o, w)) /\
  (forall (svc : ISehBiometricsFingerprint) (d : string),
     mSehBiometricsFingerprintService o = Some svc ->
     seh_answer svc 22 2 SEM_AOSP_FQNAME_bytes = NotOk d ->
     returned (onPress (o, w)) = None /\
     effects_of onPress (o, w) =
       [EWrite BRIGHTNESS_PATH "331"; ESehRequest 22 2 SEM_AOSP_FQNAME_bytes] /\
     files (snd (final (onPress (o, w)))) !! BRIGHTNESS_PATH = Some "331") /\
  (forall (svc : ISehBiometricsFingerprint) (d : string),
     mSehBiometricsFingerprintService o = Some svc ->
     seh_answer svc 22 1 SEM_AOSP_FQNAME_bytes = NotOk d ->
     onRelease (o, w) =
       Aborted (UncheckedFailedReturn d)
         (o, add_events [ESehRequest 22 1 SEM_AOSP_FQNAME_bytes] w)) /\
  (request_completes o SEM_PARAM_PRESSED = true ->
     returned (onPress (o, w)) = Some Void /\
     effects_of onPress (o, w) =
       [EWrite BRIGHTNESS_PATH "331"; ESehRequest 22 2 SEM_AOSP_FQNAME_bytes]) /\
  (request_completes o SEM_PARAM_RELEASED = true ->
     returned (onRelease (o, w)) = Some Void /\
     seh_requests (effects_of onRelease (o, w)) = [(22, 1, SEM_AOSP_FQNAME_bytes)]).
Proof.
  assert (P : forall es : list Event,
            drop (length (trace w))
              (trace (add_events es (with_file BRIGHTNESS_PATH "331" w))) = es).
  { intros es. simpl. apply drop_app_length. }
  split; [|split; [|split; [|split]]].
  - intros E. unfold effects_of. rewrite onPress_cases, onRelease_cases, E.
    cbn [returned final snd]. now rewrite P.
  - intros svc d E A. unfold effects_of. rewrite onPress_cases, E.
    change (stringToVec SEM_AOSP_FQNAME) with SEM_AOSP_FQNAME_bytes.
    change SEM_FINGER_STATE with 22. change SEM_PARAM_PRESSED with 2.
    rewrite A. cbn [returned final snd]. rewrite P.
    repeat split. simpl. apply lookup_insert_eq.
  - intros svc d E A. rewrite onRelease_cases, E.
    change (stringToVec SEM_AOSP_FQNAME) with SEM_AOSP_FQNAME_bytes.
    change SEM_FINGER_STATE with 22. change SEM_PARAM_RELEASED with 1.
    now rewrite A.
  - intros H. unfold effects_of. rewrite (onPress_ok o w H).
    cbn [returned final snd]. now rewrite P.
  - intros H. rewrite (effects_of_onRelease_ok o w H), (onRelease_ok o w H).
    split; [reflexivity|]. unfold restore_events.
    now destruct (String.eqb (mPreviousBrightness o) "").
Qed.

Lemma signal_outcome_decides_witness :
  let failing := {| mSehBiometricsFingerprintService := Some failing_service;
                    mCallback := None;
                    mPreviousBrightness := "120" |} in
  let unbound := {| mSehBiometricsFingerprintService := None;
                    mCallback := None;
                    mPreviousBrightness := "120" |} in
  onRelease (failing, sample_world) =
    Aborted (UncheckedFailedReturn "DEAD_OBJECT")
      (failing, add_events [ESehRequest 22 1 SEM_AOSP_FQNAME_bytes] sample_world) /\
  returned (onPress (failing, sample_world)) = None /\
  onRelease (unbound, sample_world) = Aborted NullDereference (unbound, sample_world) /\
  returned (onPress (fst (FingerprintInscreen_new sample_world), sample_world))
    = Some Void /\
  returned (onRelease (fst (FingerprintInscreen_new sample_world), sample_world))
    = Some Void.
Proof.
  intros failing unbound.
  destruct (signal_outcome_decides failing sample_world) as (_ & H2 & H3 & _).
  destruct (signal_outcome_decides unbound sample_world) as (H1 & _).
  destruct (signal_outcome_decides (fst (FingerprintInscreen_new sample_world))
              sample_world) as (_ & _ & _ & H4 & H5).
  split; [apply (H3 failing_service "DEAD_OBJECT"); reflexivity|].
  split; [apply (H2 failing_service "DEAD_OBJECT"); reflexivity|].
  split; [apply H1; reflexivity|].
  split; [apply H4 | apply H5]; vm_compute; reflexivity.
Defined.

(** X9.  After an [onPress] that returned and read a value from the
    brightness file, [onHideFODView], or [onRelease] when its request goes
    through, writes that value back once: the file then holds it, a later
    [get] of the file returns it, and nothing stays saved. *)
Theorem press_close_restores (c : Closer) (o : FingerprintInscreen) (w : World)
    (content v : string) :
  request_completes o SEM_PARAM_PRESSED = true ->
  closer_completes c o = true ->
  files w !! BRIGHTNESS_PATH = Some content ->
  extract content = Some v ->
  let s1 := final (onPress (o, w)) in
  let s2 := final (close c s1) in
  returned (close c s1) = Some Void /\
  writes_to BRIGHTNESS_PATH (effects_of (close c) s1) = [v] /\
  files (snd s2) !! BRIGHTNESS_PATH = Some v /\
  fst (get BRIGHTNESS_PATH "" s2) = v /\
  mPreviousBrightness (fst s2) = "".
Proof.
  intros HP HC Hf He s1 s2. subst s2 s1.
  pose proof (extract_nonempty _ _ He) as N.
  rewrite (onPress_ok o w HP), get_run, Hf, He. cbn [final fst snd].
  set (o1 := with_mPreviousBrightness v o).
  set (w1 := add_events _ _).
  assert (HC1 : closer_completes c o1 = true) by (destruct c; exact HC).
  destruct (effects_of_close c o1 w1 HC1) as (R & _ & B & _).
  rewrite R, B, (closer_completes_inv c o1 w1 HC1). cbn [final fst snd].
  subst o1. cbn [mPreviousBrightness with_mPreviousBrightness].
  rewrite (restore_files_nonempty v _ N).
  apply String.eqb_neq in N. rewrite N.
  split; [reflexivity|]. split; [reflexivity|].
  assert (F : files (with_file BRIGHTNESS_PATH v
                       (with_file TSP_CMD_PATH "fod_enable,0" w1))
              !! BRIGHTNESS_PATH = Some v) by (simpl; apply lookup_insert_eq).
  split; [|split; [|reflexivity]].
  - simpl. apply lookup_insert_eq.
  - rewrite get_run. cbn [fst files add_events]. rewrite F.
    now rewrite (extract_idem _ _ He).
Qed.

Lemma press_close_restores_witness :
  let s1 := final (onPress (FingerprintInscreen_new sample_world)) in
  let s2 := final (close ByHide s1) in
  writes_to BRIGHTNESS_PATH (effects_of (close ByHide) s1) = ["120"] /\
  files (snd s2) !! BRIGHTNESS_PATH = Some "120" /\
  fst (get BRIGHTNESS_PATH "" s2) = "120" /\
  mPreviousBrightness (fst s2) = "".
Proof.
  intros s1 s2.
  pose proof (press_close_restores ByHide
                (fst (FingerprintInscreen_new sample_world))
                (snd (FingerprintInscreen_new sample_world))
                ("120" +:+ newline) "120" eq_refl eq_refl) as H.
  destruct H as (_ & H).
  - vm_compute; reflexivity.
  - vm_compute; reflexivity.
  - vm_compute in H. vm_compute. exact H.
Defined.

(** X10.  Two presses followed by one release, all three with their
    request going through and with nothing else touching the file, leave
    the brightness file at "331" whatever it held before: the release
    writes "331" back, nothing stays saved, and the value read at the
    first press is written nowhere. *)
Theorem double_press_keeps_elevated (s : St) :
  request_completes (fst s) SEM_PARAM_PRESSED = true ->
  request_completes (fst s) SEM_PARAM_RELEASED = true ->
  let s1 := final (onPress s) in
  let s2 := final (onPress s1) in
  let s3 := final (onRelease s2) in
  returned (onRelease s2) = Some Void /\
  writes_to BRIGHTNESS_PATH (events_since s s3) = ["331"; "331"; "331"] /\
  files (snd s3) !! BRIGHTNESS_PATH = Some "331" /\
  mPreviousBrightness (fst s3) = "".
Proof.
  intros HP HR s1 s2 s3. subst s3 s2 s1. destruct s as [o w]. cbn [fst] in HP, HR.
  rewrite (onPress_ok o w HP). cbn [final].
  set (o1 := with_mPreviousBrightness (fst (get BRIGHTNESS_PATH "" (o, w))) o).
  set (w1 := add_events _ (with_file BRIGHTNESS_PATH "331" w)).
  assert (HP1 : request_completes o1 SEM_PARAM_PRESSED = true) by exact HP.
  rewrite (onPress_ok o1 w1 HP1). cbn [final].
  assert (G : fst (get BRIGHTNESS_PATH "" (o1, w1)) = "331").
  { rewrite get_run. cbn [fst]. subst w1. simpl. now rewrite lookup_insert_eq. }
  rewrite G.
  assert (HR2 : request_completes (with_mPreviousBrightness "331" o1)
                  SEM_PARAM_RELEASED = true) by exact HR.
  rewrite (onRelease_ok _ _ HR2). cbn [final returned fst snd].
  split; [reflexivity|]. split; [|split; [|reflexivity]].
  - unfold events_since. subst w1. cbn [fst snd]. simpl.
    rewrite <- !app_assoc. rewrite drop_app_length. reflexivity.
  - simpl. apply lookup_insert_eq.
Qed.

Lemma double_press_keeps_elevated_witness :
  let s := FingerprintInscreen_new sample_world in
  let s3 := final (onRelease (final (onPress (final (onPress s))))) in
  writes_to BRIGHTNESS_PATH (events_since s s3) = ["331"; "331"; "331"] /\
  files (snd s3) !! BRIGHTNESS_PATH = Some "331" /\
  mPreviousBrightness (fst s3) = "".
Proof.
  intros s s3.
  pose proof (double_press_keeps_elevated s eq_refl eq_refl) as H.
  destruct H as (_ & H). vm_compute in H. vm_compute. exact H.
Defined.

(** ** Acquisition events and the listener *)

Lemma handleAcquired_cases (a v : Z) (o : FingerprintInscreen) (w : World) :
  exists (r : bool) (es : list Event),
    handleAcquired a v (o, w) = (Ok r, (o, add_events es w)) /\
    ((r = false /\ (es = [] \/ exists msg, es = [ELogError msg])) \/
     (r = true /\ exists e, (e = EFingerDown \/ e = EFingerUp) /\
                            (es = [e] \/ exists msg, es = [e; ELogError msg]))).
Proof.
  destruct (mCallback o) as [cb|] eqn:E.
  - destruct (decide (a = 6 /\ (v = 10002 \/ v = 10001))) as [[-> [-> | ->]]|N].
    + exists true, (call_events "FingerDown() error: " EFingerDown (cb_onFingerDown cb)).
      split; [now apply handleAcquired_down|]. right. split; [reflexivity|].
      exists EFingerDown. split; [now left|]. unfold call_events.
      destruct (isOk _); eauto.
    + exists true, (call_events "FingerUp() error: " EFingerUp (cb_onFingerUp cb)).
      split; [now apply handleAcquired_up|]. right. split; [reflexivity|].
      exists EFingerUp. split; [now right|]. unfold call_events.
      destruct (isOk _); eauto.
    + exists false, [ELogError (unhandled_message a v)].
      split; [now apply (handleAcquired_other a v o w cb)|]. left. eauto.
  - exists false, []. split; [|left; eauto].
    rewrite add_events_nil. now apply handleAcquired_None.
Qed.

(** X11.  In every state and for every pair of arguments [handleAcquired]
    completes with a boolean, leaves the object, the files and the
    properties unchanged, writes no file, sends no vendor request and
    calls the listener at most once; it returns true exactly when it
    called the listener. *)
Theorem handleAcquired_read_only (a v : Z) (o : FingerprintInscreen) (w : World) :
  let r := handleAcquired a v (o, w) in
  let es := events_of (handleAcquired a v) (o, w) in
  fst (snd r) = o /\
  files (snd (snd r)) = files w /\
  properties (snd (snd r)) = properties w /\
  (forall path : string, writes_to path es = []) /\
  seh_requests es = [] /\
  exists b : bool,
    fst r = Ok b /\
    length (callback_calls es) = (if b then 1%nat else 0%nat).
Proof.
  intros r es. subst r es.
  destruct (handleAcquired_cases a v o w) as (b & es & E & H).
  rewrite (events_of_add _ _ _ _ _ _ E), E. cbn [fst snd].
  split; [reflexivity|]. split; [reflexivity|]. split; [reflexivity|].
  destruct H as [(-> & [-> | (msg & ->)]) | (-> & e & He & [-> | (msg & ->)])].
  - repeat split. exists false. split; reflexivity.
  - repeat split. exists false. split; reflexivity.
  - destruct He as [-> | ->]; repeat split; exists true; split; reflexivity.
  - destruct He as [-> | ->]; repeat split; exists true; split; reflexivity.
Qed.

(** X12.  [setCallback] replaces the listener and nothing else, and the
    last registration wins: after it, (6, 10002) is answered with true and
    one onFingerDown call from any earlier state, and after
    [setCallback(nullptr)] the same event is answered with false. *)
Theorem setCallback_replaces (cb0 cb : option IFingerprintInscreenCallback)
    (l : IFingerprintInscreenCallback) (s : St) :
  setCallback cb (snd (setCallback cb0 s)) = setCallback cb s /\
  mCallback (fst (snd (setCallback cb s))) = cb /\
  mPreviousBrightness (fst (snd (setCallback cb s))) = mPreviousBrightness (fst s) /\
  mSehBiometricsFingerprintService (fst (snd (setCallback cb s)))
    = mSehBiometricsFingerprintService (fst s) /\
  snd (snd (setCallback cb s)) = snd s /\
  fst (handleAcquired 6 10002 (snd (setCallback (Some l) (snd (setCallback cb0 s)))))
    = Ok true /\
  callback_calls (events_of (handleAcquired 6 10002)
                    (snd (setCallback (Some l) (snd (setCallback cb0 s)))))
    = [EFingerDown] /\
  fst (handleAcquired 6 10002 (snd (setCallback None (snd (setCallback cb0 s)))))
    = Ok false.
Proof.
  destruct s as [o w].
  split; [reflexivity|]. split; [reflexivity|]. split; [reflexivity|].
  split; [reflexivity|]. split; [reflexivity|].
  change (snd (setCallback (Some l) (snd (setCallback cb0 (o, w)))))
    with ({| mSehBiometricsFingerprintService := mSehBiometricsFingerprintService o;
             mCallback := Some l;
             mPreviousBrightness := mPreviousBrightness o |}, w).
  change (snd (setCallback None (snd (setCallback cb0 (o, w)))))
    with ({| mSehBiometricsFingerprintService := mSehBiometricsFingerprintService o;
             mCallback := None;
             mPreviousBrightness := mPreviousBrightness o |}, w).
  pose proof (handleAcquired_down
                {| mSehBiometricsFingerprintService := mSehBiometricsFingerprintService o;
                   mCallback := Some l;
                   mPreviousBrightness := mPreviousBrightness o |} w l eq_refl) as D.
  rewrite (events_of_add _ _ _ _ _ _ D), D, callback_calls_call_events.
  rewrite handleAcquired_None by reflexivity.
  repeat split.
Qed.

(** ** Runs of interface calls *)

Lemma world_after_id (w : World) : world_after (files w) [] w = w.
Proof. destruct w. unfold world_after. simpl. now rewrite app_nil_r. Qed.

Lemma pending_le_1 (o : FingerprintInscreen) : (pending o <= 1)%nat.
Proof. unfold pending. destruct (String.eqb _ _); lia. Qed.

Lemma get_no_space (path : string) (o : FingerprintInscreen) (w : World) :
  no_space (fst (get path "" (o, w))) = true.
Proof.
  rewrite get_run. cbn [fst].
  destruct (files w !! path) as [content|]; [|reflexivity].
  destruct (extract content) as [v|] eqn:E; [|reflexivity].
  now apply extract_no_space in E.
Qed.

Lemma final_ignore {A} (m : MA A) (s : St) : final (ignore m s) = final (m s).
Proof. unfold ignore. now destruct (m s). Qed.

Lemma final_lift {A} (m : M A) (s : St) : final (lift m s) = snd (m s).
Proof. now rewrite lift_run. Qed.

Lemma returned_ignore_lift {A} (m : M A) (s : St) :
  ignore (lift m) s = Returned tt (snd (m s)).
Proof. unfold ignore. now rewrite lift_run. Qed.

(** What one call does, in the terms the run invariants need. *)
Lemma perform_shape (c : Call) (o : FingerprintInscreen) (w : World) :
  exists (o' : FingerprintInscreen) (es : list Event) (fl : gmap string string),
    final (perform c (o, w)) = (o', world_after fl es w) /\
    mSehBiometricsFingerprintService o' = mSehBiometricsFingerprintService o /\
    (is_setCallback (Invoke c) = false -> mCallback o' = mCallback o) /\
    Forall (fun v => v = "fod_enable,0") (writes_to TSP_CMD_PATH es) /\
    seh_requests es = match mSehBiometricsFingerprintService o with
                      | Some _ => signal_of (Invoke c)
                      | None => []
                      end /\
    (length (writes_to BRIGHTNESS_PATH es) + pending o'
       <= pending o + (if is_press (Invoke c) then 2 else 0))%nat /\
    (no_space (mPreviousBrightness o) = true ->
       no_space (mPreviousBrightness o') = true /\
       Forall (fun v => v <> "" /\ no_space v = true)
         (writes_to BRIGHTNESS_PATH es)).
Proof.
  assert (Idle : forall c', final (perform c' (o, w)) = (o, w) ->
            is_press (Invoke c') = false -> signal_of (Invoke c') = [] ->
            exists o' es fl,
              final (perform c' (o, w)) = (o', world_after fl es w) /\
              mSehBiometricsFingerprintService o' = mSehBiometricsFingerprintService o /\
              (is_setCallback (Invoke c') = false -> mCallback o' = mCallback o) /\
              Forall (fun v => v = "fod_enable,0") (writes_to TSP_CMD_PATH es) /\
              seh_requests es = match mSehBiometricsFingerprintService o with
                                | Some _ => signal_of (Invoke c')
                                | None => []
                                end /\
              (length (writes_to BRIGHTNESS_PATH es) + pending o'
                 <= pending o + (if is_press (Invoke c') then 2 else 0))%nat /\
              (no_space (mPreviousBrightness o) = true ->
                 no_space (mPreviousBrightness o') = true /\
                 Forall (fun v => v <> "" /\ no_space v = true)
                   (writes_to BRIGHTNESS_PATH es))).
  { intros c' E P S. exists o, [], (files w). rewrite world_after_id, P, S.
    repeat split; try assumption; try constructor; simpl;
      try lia; now destruct (mSehBiometricsFingerprintService o). }
  destruct c; try (apply Idle; reflexivity).
  - (* onPress *)
    cbn [perform]. rewrite final_ignore, onPress_cases.
    pose proof (pending_le_1 (with_mPreviousBrightness
                                (fst (get BRIGHTNESS_PATH "" (o, w))) o)) as PL.
    destruct (mSehBiometricsFingerprintService o) as [svc|] eqn:Hs;
      [destruct (seh_answer svc SEM_FINGER_STATE SEM_PARAM_PRESSED
                   (stringToVec SEM_AOSP_FQNAME))|];
      cbn [final];
      (eexists _, _, _; split; [reflexivity|];
       split; [exact Hs|]; split; [reflexivity|];
       split; [constructor|]; split; [reflexivity|];
       split; [simpl; lia|];
       intros _; split; [apply get_no_space|];
       repeat constructor; discriminate).
  - (* onRelease *)
    cbn [perform]. rewrite final_ignore, onRelease_cases.
    destruct (mSehBiometricsFingerprintService o) as [svc|] eqn:Hs;
      [destruct (seh_answer svc SEM_FINGER_STATE SEM_PARAM_RELEASED
                   (stringToVec SEM_AOSP_FQNAME))|];
      cbn [final].
    + unfold restore_files, restore_events, pending.
      destruct (String.eqb (mPreviousBrightness o) "") eqn:E.
      * eexists _, _, _. split; [reflexivity|].
        repeat split; try discriminate; try assumption; repeat constructor.
      * eexists _, _, _. split; [reflexivity|].
        split; [exact Hs|]. split; [reflexivity|].
        split; [repeat constructor|]. split; [reflexivity|].
        split; [simpl; lia|].
        intros N. split; [reflexivity|].
        repeat constructor; [|assumption]. now apply String.eqb_neq.
    + exists o, [ESehRequest SEM_FINGER_STATE SEM_PARAM_RELEASED
                   (stringToVec SEM_AOSP_FQNAME)], (files w).
      split; [destruct w; reflexivity|].
      repeat split; try assumption; try constructor. simpl. lia.
    + exists o, [], (files w). rewrite world_after_id.
      repeat split; try assumption; try constructor. simpl. lia.
  - (* onHideFODView *)
    cbn [perform]. rewrite final_ignore, final_lift, onHideFODView_run. cbn [snd].
    unfold restore_files, restore_events, pending.
    destruct (String.eqb (mPreviousBrightness o) "") eqn:E.
    + eexists _, _, _. split; [reflexivity|].
      repeat split; try discriminate; repeat constructor;
        now destruct (mSehBiometricsFingerprintService o).
    + eexists _, _, _. split; [reflexivity|].
      split; [reflexivity|]. split; [reflexivity|].
      split; [repeat constructor|].
      split; [now destruct (mSehBiometricsFingerprintService o)|].
      split; [simpl; lia|].
      intros N. split; [reflexivity|].
      repeat constructor; [|assumption]. now apply String.eqb_neq.
  - (* handleAcquired *)
    cbn [perform]. rewrite final_ignore, final_lift.
    destruct (handleAcquired_cases acquiredInfo vendorCode o w)
      as (b & es & E & H).
    rewrite E. cbn [snd]. exists o, es, (files w).
    split; [reflexivity|]. split; [reflexivity|]. split; [reflexivity|].
    destruct H as [(_ & [-> | (msg & ->)])
                  | (_ & e & [-> | ->] & [-> | (msg & ->)])];
      (repeat split; try discriminate; try assumption; try constructor;
       simpl; try lia; now destruct (mSehBiometricsFingerprintService o)).
  - (* setCallback *)
    exists {| mSehBiometricsFingerprintService := mSehBiometricsFingerprintService o;
              mCallback := callback;
              mPreviousBrightness := mPreviousBrightness o |}, [], (files w).
    rewrite world_after_id.
    repeat split; try discriminate; try assumption; try constructor;
      [now destruct (mSehBiometricsFingerprintService o)|].
    unfold pending. simpl. lia.
  - apply Idle; [cbn [perform]; now rewrite final_ignore, final_lift, getPositionX_run
                | reflexivity..].
  - apply Idle; [cbn [perform]; now rewrite final_ignore, final_lift, getPositionY_run
                | reflexivity..].
  - apply Idle; [cbn [perform]; now rewrite final_ignore, final_lift, getSize_run
                | reflexivity..].
Qed.

Lemma world_after_after (fl1 fl2 : gmap string string) (es1 es2 : list Event)
    (w : World) :
  world_after fl2 es2 (world_after fl1 es1 w) = world_after fl2 (es1 ++ es2)%list w.
Proof. unfold world_after. simpl. now rewrite app_assoc. Qed.

Lemma events_since_world_after (o o' : FingerprintInscreen) (w : World)
    (fl : gmap string string) (es : list Event) :
  events_since (o, w) (o', world_after fl es w) = es.
Proof. unfold events_since. simpl. apply drop_app_length. Qed.

Lemma writes_to_app (path : string) (es1 es2 : list Event) :
  writes_to path (es1 ++ es2) = (writes_to path es1 ++ writes_to path es2)%list.
Proof. apply omap_app. Qed.

Lemma seh_requests_app (es1 es2 : list Event) :
  seh_requests (es1 ++ es2) = (seh_requests es1 ++ seh_requests es2)%list.
Proof. apply omap_app. Qed.

Lemma step_shape (st : Step) (o : FingerprintInscreen) (w : World) :
  exists (o' : FingerprintInscreen) (es : list Event) (fl : gmap string string),
    final (step st (o, w)) = (o', world_after fl es w) /\
    mSehBiometricsFingerprintService o' = mSehBiometricsFingerprintService o /\
    (is_setCallback st = false -> mCallback o' = mCallback o) /\
    Forall (fun v => v = "fod_enable,0") (writes_to TSP_CMD_PATH es) /\
    seh_requests es = match mSehBiometricsFingerprintService o with
                      | Some _ => signal_of st
                      | None => []
                      end /\
    (length (writes_to BRIGHTNESS_PATH es) + pending o'
       <= pending o + (if is_press st then 2 else 0))%nat /\
    (no_space (mPreviousBrightness o) = true ->
       no_space (mPreviousBrightness o') = true /\
       Forall (fun v => v <> "" /\ no_space v = true)
         (writes_to BRIGHTNESS_PATH es)).
Proof.
  destruct st as [c|path content].
  - apply perform_shape.
  - exists o, [], (<[path := content]> (files w)). split.
    + unfold step, with_file, world_after. simpl. now rewrite app_nil_r.
    + repeat split; try assumption; try constructor; simpl; try lia.
      now destruct (mSehBiometricsFingerprintService o).
Qed.

(** Once the process is gone only the files move. *)
Lemma run_dead_shape (l : list Step) (o : FingerprintInscreen) (w : World) :
  exists fl : gmap string string, run_dead l (o, w) = (o, world_after fl [] w).
Proof.
  revert w. induction l as [|st l IH]; intros w.
  - exists (files w). now rewrite world_after_id.
  - change (run_dead (st :: l) (o, w)) with (run_dead l (outside_only st (o, w))).
    destruct st as [c|path content].
    + apply IH.
    + destruct (IH (with_file path content w)) as [fl E]. exists fl.
      cbn [outside_only fst snd]. rewrite E. unfold world_after, with_file.
      reflexivity.
Qed.

Lemma run_steps_cons (st : Step) (l : list Step) (s : St) :
  run_steps (st :: l) s =
  match step st s with
  | Returned _ s' => run_steps l s'
  | Aborted _ s' => run_dead l s'
  end.
Proof. reflexivity. Qed.

Lemma run_shape (l : list Step) (o : FingerprintInscreen) (w : World) :
  exists (o' : FingerprintInscreen) (es : list Event) (fl : gmap string string),
    run_steps l (o, w) = (o', world_after fl es w) /\
    mSehBiometricsFingerprintService o' = mSehBiometricsFingerprintService o /\
    (existsb is_setCallback l = false -> mCallback o' = mCallback o) /\
    Forall (fun v => v = "fod_enable,0") (writes_to TSP_CMD_PATH es) /\
    seh_requests es = match mSehBiometricsFingerprintService o with
                      | Some _ => flat_map signal_of (started l (o, w))
                      | None => []
                      end /\
    (length (writes_to BRIGHTNESS_PATH es) + pending o'
       <= pending o + 2 * length (List.filter is_press l))%nat /\
    (no_space (mPreviousBrightness o) = true ->
       no_space (mPreviousBrightness o') = true /\
       Forall (fun v => v <> "" /\ no_space v = true)
         (writes_to BRIGHTNESS_PATH es)).
Proof.
  revert o w. induction l as [|st l IH]; intros o w.
  - exists o, [], (files w). rewrite world_after_id.
    repeat split; try assumption; try constructor; simpl; try lia.
    now destruct (mSehBiometricsFingerprintService o).
  - destruct (step_shape st o w) as (o1 & es1 & fl1 & E1 & A1 & B1 & C1 & D1 & P1 & N1).
    rewrite run_steps_cons. cbn [started].
    destruct (step st (o, w)) as [[] s1|why s1]; cbn [final] in E1; subst s1.
    + destruct (IH o1 (world_after fl1 es1 w))
        as (o2 & es2 & fl2 & E2 & A2 & B2 & C2 & D2 & P2 & N2).
      exists o2, (es1 ++ es2)%list, fl2.
      split; [now rewrite E2, world_after_after|].
      split; [congruence|].
      split.
      { simpl. intros H. apply orb_false_iff in H as [H1 H2].
        rewrite (B2 H2). now apply B1. }
      split; [rewrite writes_to_app; now apply Forall_app|].
      split.
      { rewrite seh_requests_app, D1, D2, A1.
        now destruct (mSehBiometricsFingerprintService o). }
      split.
      { rewrite writes_to_app, length_app. simpl.
        destruct (is_press st); simpl in *; lia. }
      intros N. destruct (N1 N) as [N1a N1b]. destruct (N2 N1a) as [N2a N2b].
      split; [exact N2a|]. rewrite writes_to_app. now apply Forall_app.
    + destruct (run_dead_shape l o1 (world_after fl1 es1 w)) as [fl2 E2].
      exists o1, es1, fl2.
      split; [rewrite E2, world_after_after; now rewrite app_nil_r|].
      split; [exact A1|].
      split.
      { simpl. intros H. apply orb_false_iff in H as [H1 _]. now apply B1. }
      split; [exact C1|].
      split.
      { rewrite D1. destruct (mSehBiometricsFingerprintService o); [|reflexivity].
        simpl. now rewrite app_nil_r. }
      split.
      { simpl. destruct (is_press st); simpl in *; lia. }
      exact N1.
Qed.

(** A call that returns with a null handle in the object sent nothing. *)
Lemma returned_without_handle (st : Step) (o : FingerprintInscreen) (w : World)
    (s' : St) :
  mSehBiometricsFingerprintService o = None ->
  step st (o, w) = Returned tt s' -> signal_of st = [].
Proof.
  intros Hs E. destruct st as [c|]; [|reflexivity].
  destruct c; try reflexivity; cbn [step perform] in E; unfold ignore in E.
  - rewrite onPress_cases, Hs in E. discriminate.
  - rewrite onRelease_cases, Hs in E. discriminate.
Qed.

Lemma completes_signals (l : list Step) (o : FingerprintInscreen) (w : World) :
  completes l (o, w) = true ->
  match mSehBiometricsFingerprintService o with
  | Some _ => flat_map signal_of (started l (o, w))
  | None => []
  end = flat_map signal_of l.
Proof.
  revert o w. induction l as [|st l IH]; intros o w.
  - intros _. now destruct (mSehBiometricsFingerprintService o).
  - cbn [completes started].
    destruct (step_shape st o w) as (o1 & es1 & fl1 & E1 & A1 & _).
    destruct (step st (o, w)) as [[] s1|why s1] eqn:E; [|discriminate].
    cbn [final] in E1. subst s1. intros H. specialize (IH _ _ H).
    rewrite A1 in IH. cbn [flat_map].
    destruct (mSehBiometricsFingerprintService o) eqn:Hs.
    + now rewrite IH.
    + rewrite (returned_without_handle st o w _ Hs E). exact IH.
Qed.

(** X13.  No run of interface calls and outside file changes, from any
    state, writes anything to the command file but "fod_enable,0": after
    construction the rectangle is never programmed again and detection is
    never switched back on. *)
Theorem detection_never_reenabled (l : list Step) (s : St) :
  Forall (fun v => v = "fod_enable,0")
    (writes_to TSP_CMD_PATH (events_since s (run_steps l s))).
Proof.
  destruct s as [o w]. destruct (run_shape l o w) as (o' & es & fl & E & _ & _ & H & _).
  now rewrite E, events_since_world_after.
Qed.

(** X14.  Of the steps of a run that were started (all of them, or those
    up to the call that ended the process), each [onPress] sent one
    pressed signal (22, 2, name) and each [onRelease] one released signal
    (22, 1, name), in that order, and nothing else sent any; an object
    with a null handle sent none.  For a run in which every call returns
    this is one signal per [onPress] and [onRelease] of the whole run. *)
Theorem signals_mirror_calls (l : list Step) (s : St) :
  seh_requests (events_since s (run_steps l s))
    = match mSehBiometricsFingerprintService (fst s) with
      | Some _ => flat_map signal_of (started l s)
      | None => []
      end /\
  (completes l s = true ->
   seh_requests (events_since s (run_steps l s)) = flat_map signal_of l).
Proof.
  destruct s as [o w].
  destruct (run_shape l o w) as (o' & es & fl & E & _ & _ & _ & H & _).
  rewrite E, events_since_world_after. cbn [fst]. split; [exact H|].
  intros C. rewrite H. now apply completes_signals.
Qed.

Lemma signals_mirror_calls_witness :
  let l := [Invoke CallOnPress; Invoke CallOnHideFODView; Invoke CallOnPress;
            Invoke CallOnRelease] in
  let s := FingerprintInscreen_new sample_world in
  seh_requests (events_since s (run_steps l s)) =
    [(22, 2, SEM_AOSP_FQNAME_bytes); (22, 2, SEM_AOSP_FQNAME_bytes);
     (22, 1, SEM_AOSP_FQNAME_bytes)].
Proof.
  intros l s. apply (signals_mirror_calls l s). vm_compute; reflexivity.
Defined.

(** X15.  Over any run the brightness file is written at most twice per
    [onPress] (the raise and at most one write back), plus once if a value
    was already saved at the start; a value still saved at the end counts
    against the same bound. *)
Theorem brightness_writes_bounded (l : list Step) (s : St) :
  (length (writes_to BRIGHTNESS_PATH (events_since s (run_steps l s)))
   + pending (fst (run_steps l s))
   <= pending (fst s) + 2 * length (List.filter is_press l))%nat.
Proof.
  destruct s as [o w].
  destruct (run_shape l o w) as (o' & es & fl & E & _ & _ & _ & _ & H & _).
  now rewrite E, events_since_world_after.
Qed.

(** X16.  If the saved brightness holds no white space at the start (as
    after construction, where it is empty), then over any run every value
    written to the brightness file is non-empty and free of white space,
    and the saved brightness still holds none at the end. *)
Theorem brightness_writes_well_formed (l : list Step) (s : St) :
  no_space (mPreviousBrightness (fst s)) = true ->
  Forall (fun v => v <> "" /\ no_space v = true)
    (writes_to BRIGHTNESS_PATH (events_since s (run_steps l s))) /\
  no_space (mPreviousBrightness (fst (run_steps l s))) = true.
Proof.
  destruct s as [o w]. intros N.
  destruct (run_shape l o w) as (o' & es & fl & E & _ & _ & _ & _ & _ & H).
  rewrite E, events_since_world_after. destruct (H N). now split.
Qed.

Lemma brightness_writes_well_formed_witness :
  let l := [Invoke CallOnPress; Outside BRIGHTNESS_PATH (" 77" +:+ newline);
            Invoke CallOnPress; Invoke CallOnHideFODView; Invoke CallOnRelease] in
  let s := FingerprintInscreen_new sample_world in
  Forall (fun v => v <> "" /\ no_space v = true)
    (writes_to BRIGHTNESS_PATH (events_since s (run_steps l s))) /\
  no_space (mPreviousBrightness (fst (run_steps l s))) = true.
Proof.
  intros l s. apply (brightness_writes_well_formed l s). vm_compute; reflexivity.
Defined.

(** X17.  Over any run the service handle taken at construction and the
    platform properties stay what they were, and the listener changes only
    through [setCallback]: a run without that call leaves it as it was. *)
Theorem run_frame (l : list Step) (s : St) :
  mSehBiometricsFingerprintService (fst (run_steps l s))
    = mSehBiometricsFingerprintService (fst s) /\
  properties (snd (run_steps l s)) = properties (snd s) /\
  (existsb is_setCallback l = false ->
     mCallback (fst (run_steps l s)) = mCallback (fst s)).
Proof.
  destruct s as [o w].
  destruct (run_shape l o w) as (o' & es & fl & E & A & B & _).
  rewrite E. repeat split; assumption.
Qed.

Lemma run_frame_witness :
  let l := [Invoke CallOnPress; Invoke (CallHandleAcquired 6 10002);
            Invoke CallOnRelease; Invoke CallGetSize] in
  let s := snd (setCallback (Some dead_listener) (FingerprintInscreen_new sample_world)) in
  mCallback (fst (run_steps l s)) = Some dead_listener.
Proof.
  intros l s. apply (run_frame l s). reflexivity.
Defined.

(** What one call does to the files and to the listener. *)
Lemma perform_touch (c : Call) (o : FingerprintInscreen) (w : World) :
  exists (o' : FingerprintInscreen) (es : list Event) (fl : gmap string string),
    final (perform c (o, w)) = (o', world_after fl es w) /\
    (forall path : string, path <> TSP_CMD_PATH -> path <> BRIGHTNESS_PATH ->
       fl !! path = files w !! path /\ writes_to path es = []) /\
    (length (callback_calls es) <= (if is_recognised c then 1 else 0))%nat.
Proof.
  assert (W : forall (path p v : string) (es : list Event),
             path <> p -> writes_to path (EWrite p v :: es) = writes_to path es).
  { intros path p v es N. unfold writes_to. simpl.
    destruct (String.eqb_spec p path); [congruence | reflexivity]. }
  assert (Idle : forall c', final (perform c' (o, w)) = (o, w) ->
            exists o' es fl,
              final (perform c' (o, w)) = (o', world_after fl es w) /\
              (forall path : string, path <> TSP_CMD_PATH -> path <> BRIGHTNESS_PATH ->
                 fl !! path = files w !! path /\ writes_to path es = []) /\
              (length (callback_calls es) <= (if is_recognised c' then 1 else 0))%nat).
  { intros c' E. exists o, [], (files w). rewrite world_after_id.
    repeat split; try assumption. simpl. lia. }
  destruct c; try (apply Idle; reflexivity).
  - cbn [perform]. rewrite final_ignore, onPress_cases.
    destruct (mSehBiometricsFingerprintService o) as [svc|];
      [destruct (seh_answer svc SEM_FINGER_STATE SEM_PARAM_PRESSED
                   (stringToVec SEM_AOSP_FQNAME))|];
      cbn [final];
      (eexists _, _, _; split; [reflexivity|]; split; [|simpl; lia];
       intros path NT NB; split;
       [ simpl; now rewrite lookup_insert_ne by congruence
       | now rewrite W by congruence ]).
  - cbn [perform]. rewrite final_ignore, onRelease_cases.
    destruct (mSehBiometricsFingerprintService o) as [svc|];
      [destruct (seh_answer svc SEM_FINGER_STATE SEM_PARAM_RELEASED
                   (stringToVec SEM_AOSP_FQNAME))|];
      cbn [final].
    + unfold restore_files, restore_events.
      destruct (String.eqb (mPreviousBrightness o) "");
        (eexists _, _, _; split; [reflexivity|]; split; [|simpl; lia];
         intros path NT NB; split;
         [ simpl; now rewrite !lookup_insert_ne by congruence
         | change (writes_to path (ESehRequest ?a ?b ?d :: ?r)) with (writes_to path r);
           now rewrite !W by congruence ]).
    + exists o, [ESehRequest SEM_FINGER_STATE SEM_PARAM_RELEASED
                   (stringToVec SEM_AOSP_FQNAME)], (files w).
      split; [destruct w; reflexivity|]. repeat split. simpl. lia.
    + exists o, [], (files w). rewrite world_after_id. repeat split. simpl. lia.
  - cbn [perform]. rewrite final_ignore, final_lift, onHideFODView_run. cbn [snd].
    unfold restore_files, restore_events.
    destruct (String.eqb (mPreviousBrightness o) "");
      (eexists _, _, _; split; [reflexivity|]; split; [|simpl; lia];
       intros path NT NB; split;
       [ simpl; now rewrite !lookup_insert_ne by congruence
       | now rewrite !W by congruence ]).
  - cbn [perform]. rewrite final_ignore, final_lift.
    destruct (mCallback o) as [cb|] eqn:E.
    + destruct (decide (acquiredInfo = 6 /\ (vendorCode = 10002 \/ vendorCode = 10001)))
        as [[-> [-> | ->]]|N].
      * rewrite (handleAcquired_down o w cb E). cbn [snd].
        eexists o, _, (files w). split; [reflexivity|]. split.
        -- intros path _ _. split; [reflexivity|].
           unfold call_events. now destruct (isOk _).
        -- rewrite callback_calls_call_events. simpl. lia.
      * rewrite (handleAcquired_up o w cb E). cbn [snd].
        eexists o, _, (files w). split; [reflexivity|]. split.
        -- intros path _ _. split; [reflexivity|].
           unfold call_events. now destruct (isOk _).
        -- rewrite callback_calls_call_events. simpl. lia.
      * rewrite (handleAcquired_other _ _ o w cb E N). cbn [snd].
        eexists o, _, (files w). split; [reflexivity|]. split.
        -- intros path _ _. split; reflexivity.
        -- simpl. lia.
    + rewrite (handleAcquired_None _ _ o w E). cbn [snd].
      exists o, [], (files w). rewrite world_after_id. repeat split. simpl. lia.
  - exists {| mSehBiometricsFingerprintService := mSehBiometricsFingerprintService o;
              mCallback := callback;
              mPreviousBrightness := mPreviousBrightness o |}, [], (files w).
    rewrite world_after_id. repeat split. simpl. lia.
  - apply Idle. cbn [perform]. now rewrite final_ignore, final_lift, getPositionX_run.
  - apply Idle. cbn [perform]. now rewrite final_ignore, final_lift, getPositionY_run.
  - apply Idle. cbn [perform]. now rewrite final_ignore, final_lift, getSize_run.
Qed.

Lemma callback_calls_app (es1 es2 : list Event) :
  callback_calls (es1 ++ es2) = (callback_calls es1 ++ callback_calls es2)%list.
Proof. apply List.filter_app. Qed.

Lemma run_dead_calls (cs : list Call) (s : St) :
  run_dead (map Invoke cs) s = s.
Proof. induction cs as [|c cs IH]; [reflexivity | exact IH]. Qed.

Lemma run_touch (cs : list Call) (o : FingerprintInscreen) (w : World) :
  exists (o' : FingerprintInscreen) (es : list Event) (fl : gmap string string),
    run_steps (map Invoke cs) (o, w) = (o', world_after fl es w) /\
    (forall path : string, path <> TSP_CMD_PATH -> path <> BRIGHTNESS_PATH ->
       fl !! path = files w !! path /\ writes_to path es = []) /\
    (length (callback_calls es) <= length (List.filter is_recognised cs))%nat.
Proof.
  revert o w. induction cs as [|c cs IH]; intros o w.
  - exists o, [], (files w). rewrite world_after_id. repeat split. simpl. lia.
  - destruct (perform_touch c o w) as (o1 & es1 & fl1 & E1 & F1 & L1).
    cbn [map]. rewrite run_steps_cons. cbn [step].
    destruct (perform c (o, w)) as [[] s1|why s1]; cbn [final] in E1; subst s1.
    + destruct (IH o1 (world_after fl1 es1 w)) as (o2 & es2 & fl2 & E2 & F2 & L2).
      exists o2, (es1 ++ es2)%list, fl2.
      split; [now rewrite E2, world_after_after|]. split.
      * intros path NT NB. destruct (F1 path NT NB) as [Fa Fb].
        destruct (F2 path NT NB) as [Fc Fd]. split.
        -- rewrite Fc. exact Fa.
        -- now rewrite writes_to_app, Fb, Fd.
      * rewrite callback_calls_app, length_app. simpl.
        destruct (is_recognised c); simpl in *; lia.
    + rewrite run_dead_calls. exists o1, es1, fl1.
      split; [reflexivity|]. split; [exact F1|].
      simpl. destruct (is_recognised c); simpl in *; lia.
Qed.

(** X19.  The code writes no file but the command file and the brightness
    file: over any run of interface calls every other path keeps its
    content and receives no write. *)
Theorem only_two_files_written (cs : list Call) (s : St) (path : string) :
  path <> TSP_CMD_PATH -> path <> BRIGHTNESS_PATH ->
  files (snd (run_steps (map Invoke cs) s)) !! path = files (snd s) !! path /\
  writes_to path (events_since s (run_steps (map Invoke cs) s)) = [].
Proof.
  destruct s as [o w]. intros NT NB.
  destruct (run_touch cs o w) as (o' & es & fl & E & F & _).
  rewrite E, events_since_world_after. now apply F.
Qed.

Lemma only_two_files_written_witness :
  let cs := [CallOnPress; CallOnRelease; CallOnPress; CallOnHideFODView] in
  let s := FingerprintInscreen_new
             (with_file "/sys/class/lcd/panel/mask_brightness" "0" sample_world) in
  files (snd (run_steps (map Invoke cs) s)) !! "/sys/class/lcd/panel/mask_brightness"
    = Some "0" /\
  writes_to "/sys/class/lcd/panel/mask_brightness"
    (events_since s (run_steps (map Invoke cs) s)) = [].
Proof.
  intros cs s.
  destruct (only_two_files_written cs s "/sys/class/lcd/panel/mask_brightness")
    as [H1 H2].
  - discriminate.
  - discriminate.
  - split; [rewrite H1; vm_compute; reflexivity | exact H2].
Defined.

(** X20.  Over any run of interface calls the listener is called at most
    once for each [handleAcquired] with a recognised pair, and by nothing
    else: presses, releases and the other calls never reach it. *)
Theorem listener_calls_bounded (cs : list Call) (s : St) :
  (length (callback_calls (events_since s (run_steps (map Invoke cs) s)))
   <= length (List.filter is_recognised cs))%nat.
Proof.
  destruct s as [o w].
  destruct (run_touch cs o w) as (o' & es & fl & E & _ & L).
  now rewrite E, events_since_world_after.
Qed.

(** X21.  The three getters answer the same before and after any run of
    interface calls and outside file changes: nothing the object does, and
    no file content, influences the reported geometry. *)
Theorem getters_stable_over_runs (l : list Step) (s : St) :
  fst (getPositionX (run_steps l s)) = fst (getPositionX s) /\
  fst (getPositionY (run_steps l s)) = fst (getPositionY s) /\
  fst (getSize (run_steps l s)) = fst (getSize s).
Proof.
  destruct s as [o w]. destruct (run_shape l o w) as (o' & es & fl & E & _).
  rewrite E, !getPositionX_run, !getPositionY_run, !getSize_run.
  repeat split.
Qed.
